(** * feedbot: the command layer (commands.go)

    A shallow embedding of the command router, the permission checker and
    the command handlers of feedbot, with the properties of its
    specification stated and proved over the embedding.

    The embedding follows the complete command file, the one whose
    handlers have bodies and which knows [owner] and [dbg~migrate]; the
    repository also holds a skeleton of it whose handlers stop after the
    permission check.

    Go strings are byte sequences; they are modelled by [string] (a list
    of 8-bit characters), so [String.length] is Go's [len]. *)

From Stdlib Require Import String Ascii List ZArith Bool Lia.
From Stdlib Require Import Decimal DecimalString DecimalPos.
Import ListNotations.

Open Scope string_scope.
Open Scope Z_scope.

(** ** Go runtime and library functions used by the commands *)

Module Go.

(** [s[lo:hi]] for [lo <= hi <= len(s)]. *)
Definition slice (s : string) (lo hi : nat) : string :=
  substring lo (hi - lo) s.

(** [s[lo:]]. *)
Definition sliceFrom (s : string) (lo : nat) : string :=
  substring lo (String.length s - lo) s.

(** [strings.HasPrefix(s, p)]. *)
Definition HasPrefix (s p : string) : bool := String.prefix p s.

Definition space : ascii := " "%char.

(** [strings.Split(s, " ")]: the fields between single spaces; never an
    empty list. *)
Fixpoint Split (s : string) : list string :=
  match s with
  | EmptyString => [EmptyString]
  | String c rest =>
      if Ascii.eqb c space then EmptyString :: Split rest
      else match Split rest with
           | w :: ws => String c w :: ws
           | [] => [String c EmptyString]
           end
  end.

(** [\d] of Go's regexp package: an ASCII decimal digit. *)
Definition isDigit (c : ascii) : bool :=
  let n := nat_of_ascii c in (Nat.leb 48 n && Nat.leb n 57)%bool.

Fixpoint allDigits (s : string) : bool :=
  match s with
  | EmptyString => true
  | String c rest => (isDigit c && allDigits rest)%bool
  end.

Definition digitVal (c : ascii) : Z := Z.of_nat (nat_of_ascii c) - 48.

(** The value of a digit string, most significant digit first. *)
Fixpoint digitsVal (acc : Z) (s : string) : Z :=
  match s with
  | EmptyString => acc
  | String c rest => digitsVal (acc * 10 + digitVal c) rest
  end.

Definition minInt : Z := - 2 ^ 63.
Definition maxInt : Z := 2 ^ 63 - 1.

(** [strconv.Atoi] on a 64-bit platform: an optional sign, then one or
    more decimal digits, the value within the range of [int]; [None]
    stands for a non-nil error. *)
Definition Atoi (s : string) : option Z :=
  match s with
  | EmptyString => None
  | String c rest =>
      let neg := Ascii.eqb c "-"%char in
      let body := if (neg || Ascii.eqb c "+"%char)%bool then rest else s in
      match body with
      | EmptyString => None
      | _ =>
          if allDigits body then
            let v := if neg then - digitsVal 0 body else digitsVal 0 body in
            if ((minInt <=? v) && (v <=? maxInt))%bool then Some v else None
          else None
      end
  end.

(** [regexp.MustCompile(`<#\d+>`)]: the rest of a match once its first
    digit is read, that is [\d*>] at the head of [s]. *)
Fixpoint digitsThenClose (s : string) : bool :=
  match s with
  | EmptyString => false
  | String c rest =>
      if Ascii.eqb c ">"%char then true
      else if isDigit c then digitsThenClose rest
      else false
  end.

(** A match of [<#\d+>] that starts at the head of [s]. *)
Definition matchHere (s : string) : bool :=
  match s with
  | String a (String b (String d rest)) =>
      (Ascii.eqb a "<"%char && Ascii.eqb b "#"%char
       && isDigit d && digitsThenClose rest)%bool
  | _ => false
  end.

(** [Regexp.MatchString]: the pattern is not anchored, so a match may
    start at any position of [s]. *)
Fixpoint MatchString (s : string) : bool :=
  (matchHere s
   || match s with
      | EmptyString => false
      | String _ rest => MatchString rest
      end)%bool.

(** The verb [%d] of [fmt.Sprintf] on an [int]. *)
Definition itoa (z : Z) : string := NilZero.string_of_int (Z.to_int z).

(** The verb [%v] of [fmt.Sprintf] on a [bool]. *)
Definition fmtV (b : bool) : string := if b then "true" else "false".

End Go.

(** ** Data model *)

(** Go [error] values the commands tell apart: the two sentinels compared
    with [==], any other failure, and [errors.WithStack]. *)
Inductive Err : Type :=
| ErrNoRows
| ErrSubExists
| ErrOther (msg : string)
| WithStack (cause : Err).

(** A Go result pair [(v, err)] whose value is used only when [err] is
    nil. *)
Inductive Res (A : Type) : Type :=
| Ok (v : A)
| Fail (err : Err).
Arguments Ok {A} v.
Arguments Fail {A} err.

Module sql.
(** [sql.NullBool]. *)
Record NullBool : Type := mkNullBool { Bool : bool; Valid : bool }.
End sql.

Record User : Type := mkUser { User_ID : string; User_Bot : bool }.

Record Member : Type := mkMember { Member_Roles : list string }.

Record Role : Type := mkRole { Role_Permissions : Z }.

Record Guild : Type := mkGuild { Guild_ID : string; Guild_OwnerID : string }.

Record Application : Type := mkApplication { App_Owner : User }.

(** [discordgo.PermissionAdministrator]. *)
Definition PermissionAdministrator : Z := 8.

Record MessageCreate : Type := mkMessage {
  Msg_ChannelID : string;
  Msg_GuildID : string;
  Msg_Content : string;
  Msg_Author : User;
  Msg_Mentions : list User
}.

Record Feed : Type := mkFeed { Feed_ID : Z; Feed_URI : string }.

Record Overwrite : Type := mkOverwrite {
  Overwrite_Embeds : sql.NullBool;
  Overwrite_Webhooks : sql.NullBool
}.

Record Subscription : Type := mkSubscription {
  Sub_ID : Z;
  Sub_GuildID : string;
  Sub_ChannelID : string;
  Sub_Feed : Feed;
  Sub_Overwrite : Overwrite
}.

Record GuildConfig : Type := mkGuildConfig {
  GC_Contact : string;
  GC_Embeds : bool;
  GC_Webhooks : bool
}.

(** The part of [discordgo.Session] the commands call. [State_*] are the
    lookups in the session's state cache, the others are live requests.
    Modelled from the spec: [GuildRole] is the live query for one role
    (the fallback of ResolveRole); no function of commands.go calls it. *)
Record Session : Type := mkSession {
  State_Member : string -> string -> Res Member;
  GuildMember : string -> string -> Res Member;
  State_Role : string -> string -> Res Role;
  GuildRole : string -> string -> Res Role;
  State_Guild : string -> Res (option Guild);
  Session_Application : string -> Res Application;
  ChannelMessageSend : string -> string -> option Err
}.

(** A call of a controller method that may write to the repository. *)
Inductive RepoWrite : Type :=
| WGetOrCreateFeed (uri : string)
| WAddSubscription (channel guild : string) (feed : Z)
| WDestroySubscription (id : Z)
| WModifySubscriptionChannel (id : Z) (channel : string)
| WModifyGuildContact (guild contact : string)
| WModifyGuildEmbeds (guild : string) (v : bool)
| WModifyGuildWebhooks (guild : string) (v : bool)
| WModifyOverwriteEmbeds (id : Z) (v : sql.NullBool)
| WModifyOverwriteWebhooks (id : Z) (v : sql.NullBool)
| WCreateGuildConfig (guild contact : string).

(** The controller [bot.c]: the repository interface, over any store [R].
    Its implementation is not part of commands.go, so the handlers are
    stated over every controller. Reads leave the store as it is; a
    method that may write returns the new store. [AddSubscription]
    returns Go's pair, the subscription being the existing one when the
    error is [ErrSubExists]. *)
Record Controller (R : Type) : Type := mkController {
  GetOrCreateFeed : string -> R -> Res Feed * R;
  AddSubscription : string -> string -> Z -> R -> (Subscription * option Err) * R;
  GetSubscription : Z -> R -> Res Subscription;
  DestroySubscription : Z -> R -> option Err * R;
  GetSubscriptions : string -> R -> Res (list Subscription);
  GetGuildConfig : string -> R -> Res GuildConfig;
  ModifySubscriptionChannel : Z -> string -> R -> option Err * R;
  ModifyGuildContact : string -> string -> R -> option Err * R;
  ModifyGuildEmbeds : string -> bool -> R -> option Err * R;
  ModifyGuildWebhooks : string -> bool -> R -> option Err * R;
  ModifyOverwriteEmbeds : Z -> sql.NullBool -> R -> option Err * R;
  ModifyOverwriteWebhooks : Z -> sql.NullBool -> R -> option Err * R;
  CreateGuildConfig : string -> string -> R -> option Err * R
}.
Arguments GetOrCreateFeed {R} _ _ _.
Arguments AddSubscription {R} _ _ _ _ _.
Arguments GetSubscription {R} _ _ _.
Arguments DestroySubscription {R} _ _ _.
Arguments GetSubscriptions {R} _ _ _.
Arguments GetGuildConfig {R} _ _ _.
Arguments ModifySubscriptionChannel {R} _ _ _ _.
Arguments ModifyGuildContact {R} _ _ _ _.
Arguments ModifyGuildEmbeds {R} _ _ _ _.
Arguments ModifyGuildWebhooks {R} _ _ _ _.
Arguments ModifyOverwriteEmbeds {R} _ _ _ _.
Arguments ModifyOverwriteWebhooks {R} _ _ _ _.
Arguments CreateGuildConfig {R} _ _ _ _.

(** A value passed to [panic]. *)
Inductive PanicValue : Type :=
| PanicErr (err : Err)
| NilDereference.

(** A line written by [l.Println] at the dispatch boundary:
    [cmd:<verb> err:<err>] or [cmd:<verb> pnc:<value>]. *)
Inductive LogLine : Type :=
| LogErr (verb : string) (err : Err)
| LogPanic (verb : string) (v : PanicValue).

(** What the commands read and change: the messages delivered to
    channels, the repository behind the controller with the journal of
    its writing calls, the operational log, and the package variables
    [mentionPrefix] and [owner] ([mentionPrefixLen] is always the length
    of [mentionPrefix]). *)
Record World (R : Type) : Type := mkWorld {
  sent : list (string * string);
  store : R;
  journal : list RepoWrite;
  logged : list LogLine;
  mentionPrefix : string;
  owner : string
}.
Arguments mkWorld {R} _ _ _ _ _ _.
Arguments sent {R} _.
Arguments store {R} _.
Arguments journal {R} _.
Arguments logged {R} _.
Arguments mentionPrefix {R} _.
Arguments owner {R} _.

Definition prefix : string := "/feed:".

(** How a call ends: it returns, or it panics. *)
Inductive Run (A : Type) : Type :=
| Done (a : A)
| Panicked (v : PanicValue).
Arguments Done {A} a.
Arguments Panicked {A} v.

(** Computations over the world. *)
Definition M (R A : Type) : Type := World R -> Run A * World R.

Definition ret {R A} (a : A) : M R A := fun w => (Done a, w).

Definition bind {R A B} (c : M R A) (k : A -> M R B) : M R B :=
  fun w =>
    match c w with
    | (Done a, w') => k a w'
    | (Panicked v, w') => (Panicked v, w')
    end.

Definition panic {R A} (v : PanicValue) : M R A := fun w => (Panicked v, w).

Declare Scope go_scope.
Delimit Scope go_scope with go.
Notation "x <- c ;; k" := (bind c (fun x => k))
  (at level 61, c at next level, right associativity) : go_scope.
Open Scope go_scope.

(** A command: it returns a Go [error], nil being [None]. *)
Definition Cmd (R : Type) : Type := M R (option Err).

Record context (R : Type) : Type := mkContext {
  bot_c : Controller R;
  ctx_s : Session;
  ctx_m : MessageCreate;
  ctx_args : list string
}.
Arguments mkContext {R} _ _ _ _.
Arguments bot_c {R} _.
Arguments ctx_s {R} _.
Arguments ctx_m {R} _.
Arguments ctx_args {R} _.

(** ** Calls on the collaborators *)

Section Commands.

Context {R : Type}.


(** The world once the text [m] is delivered to the channel [ch]. *)
Definition deliver (ch m : string) (w : World R) : World R :=
  mkWorld (sent w ++ [(ch, m)]) (store w) (journal w) (logged w)
    (mentionPrefix w) (owner w).

(** Reply sends a message to the source channel. A message the
    transport refuses is not delivered. *)
Definition Reply (c : context R) (m : string) : Cmd R :=
  fun w =>
    match ChannelMessageSend (ctx_s c) (Msg_ChannelID (ctx_m c)) m with
    | None => (Done None, deliver (Msg_ChannelID (ctx_m c)) m w)
    | Some err => (Done (Some err), w)
    end.

(** A controller method that only reads. *)
Definition query {A} (f : R -> A) : M R A :=
  fun w => (Done (f (store w)), w).

(** A controller method that may write: the call is entered in the
    journal and the store is replaced by the one the method returns. *)
Definition update {A} (call : RepoWrite) (f : R -> A * R) : M R A :=
  fun w =>
    let (a, st) := f (store w) in
    (Done a,
     mkWorld (sent w) st (journal w ++ [call]) (logged w)
             (mentionPrefix w) (owner w)).

(** [args[i]], for [i] below [len(args)]. *)
Definition arg (c : context R) (i : nat) : string := nth i (ctx_args c) "".

(** ** The permission checker *)

(** The loop of [memberHasPermission] over [member.Roles]. *)
Fixpoint anyRoleGrants (s : Session) (guildID : string)
    (roles : list string) (permission : Z) : bool * option Err :=
  match roles with
  | [] => (false, None)
  | roleID :: rest =>
      match State_Role s guildID roleID with
      | Fail err => (false, Some err)
      | Ok role =>
          if negb (Z.land (Role_Permissions role) permission =? 0)
          then (true, None)
          else anyRoleGrants s guildID rest permission
      end
  end.

Definition memberHasPermission (s : Session) (guildID userID : string)
    (permission : Z) : bool * option Err :=
  match State_Member s guildID userID with
  | Ok member => anyRoleGrants s guildID (Member_Roles member) permission
  | Fail _ =>
      match GuildMember s guildID userID with
      | Fail err => (false, Some err)
      | Ok member => anyRoleGrants s guildID (Member_Roles member) permission
      end
  end.

Definition adminOnly : string :=
  "Sorry, feedbot requires the **ADMINISTRATOR** privilege!".

Definition checkPrivilege (c : context R) : M R (bool * option Err) :=
  match memberHasPermission (ctx_s c) (Msg_GuildID (ctx_m c))
          (User_ID (Msg_Author (ctx_m c))) PermissionAdministrator with
  | (_, Some err) => ret (false, Some err)
  | (ok, None) =>
      if negb ok then
        err <- Reply c adminOnly ;;
        match err with
        | Some e => ret (false, Some e)
        | None => ret (true, None)
        end
      else ret (true, None)
  end.

(** ** The tri-state flag *)

(** The token of [set embed] and [set webhook], as both handlers read
    it: [None] when the token is none of the three. *)
Definition parseFlag (a : string) : option sql.NullBool :=
  if String.eqb a "on" then Some (sql.mkNullBool true true)
  else if String.eqb a "off" then Some (sql.mkNullBool false true)
  else if String.eqb a "inherit" then Some (sql.mkNullBool false false)
  else None.

Definition fmtBool (v : sql.NullBool) : string :=
  if negb (sql.Valid v) then "inherit"
  else if sql.Bool v then "on"
  else "false".

(** ** Handlers *)

Definition nl : string := String (ascii_of_nat 10) EmptyString.

Definition helpText : string :=
  nl ++ "**feedbot**" ++ nl ++ nl ++ "**commands:**" ++ nl
  ++ "- help: print this message" ++ nl
  ++ "- add <uri> [channel]: add an RSS feed by its URI; optionally specifying a channel where updates will be posted" ++ nl
  ++ "- remove <id>: remove an RSS feed by its ID (see the list command)" ++ nl
  ++ "- list: list the RSS feeds active in this guild, and any additional configuration options" ++ nl
  ++ "- set channel <id> [channel]: set the channel a given feed should write to; will assume current channel if unspecified" ++ nl
  ++ "- set contact <user|channel>: set the emergency contact for this guild; defaults to the server owner" ++ nl
  ++ "- set embed <on|off|inherit> [id]: enable or disable embeds for this guild; optionally specifying a feed to change this behavior for" ++ nl
  ++ "- set webhook <on|off|inherit> [id]: enable or disable webhooks for this guild, optionally specifying a feed to change this behavior for" ++ nl
  ++ nl
  ++ "the inherit flag may only be used when specifying a feed-specific overwrite!" ++ nl
  ++ nl ++ "**how it works:**" ++ nl
  ++ "every 60 minutes, feedbot will ping the feeds its users have specified. for feeds that have new content, feedbot" ++ nl
  ++ "will find every discord channel with a subscription, and send an update." ++ nl
  ++ nl ++ "**permissions:**" ++ nl
  ++ "feedbot will only respect users who poesess the **ADMINISTRATOR** permission in a guild.discordgo" ++ nl
  ++ nl
  ++ "feedbot by default only requires **READ MESSAGES** and **SEND MESSAGES**." ++ nl
  ++ nl
  ++ "if embeds are enabled for a feed, the **EMBED LINKS** permission must be given." ++ nl
  ++ "if webhooks are enabled for a feed, the **MANAGE WEBHOOKS** permission must be given." ++ nl
  ++ nl ++ "**emergency contact:**" ++ nl
  ++ "if a permission is missing, or a feed is broken, feedbot will notify the emergency contact." ++ nl.

(** help *)
Definition help (c : context R) : Cmd R := Reply c helpText.

(** The channel named by an optional channel argument [a], as [add] and
    [set channel] compute it: [a[2 : len(a)-1]] when the pattern is
    found in [a], nothing otherwise. *)
Definition channelOf (a : string) : option string :=
  if negb (Go.MatchString a) then None
  else Some (Go.slice a 2 (String.length a - 1)).

Definition msgUseMention : string :=
  "when specifying a channel ID, please use a #channel mention!".
Definition msgIdNumber : string := "`id` must be a number!".
Definition msgNotFound : string :=
  "could not find a subscription with that ID, check the list again?".
Definition msgOtherGuild (id : Z) : string :=
  "subscription #" ++ Go.itoa id ++ " does not exist in this guild.".
Definition msgDeleted (id : Z) : string :=
  "subscription #" ++ Go.itoa id ++ " has been deleted.".

(** add <uri> [channel] *)
Definition add (c : context R) : Cmd R :=
  p <- checkPrivilege c ;;
  match p with
  | (_, Some err) => ret (Some (WithStack err))
  | (false, None) => ret None
  | (true, None) =>
      let l := length (ctx_args c) in
      if ((l <? 1) || (2 <? l))%nat%bool then
        Reply c "**usage:** `add <uri> [channel]`; please omit spaces from arguments!"
      else
        let uri := arg c 0 in
        match (if (l =? 2)%nat then channelOf (arg c 1)
               else Some (Msg_ChannelID (ctx_m c))) with
        | None => Reply c msgUseMention
        | Some channel =>
            f <- update (WGetOrCreateFeed uri) (GetOrCreateFeed (bot_c c) uri) ;;
            match f with
            | Fail err => ret (Some err)
            | Ok feed =>
                a <- update (WAddSubscription channel (Msg_GuildID (ctx_m c)) (Feed_ID feed))
                       (AddSubscription (bot_c c) channel (Msg_GuildID (ctx_m c)) (Feed_ID feed)) ;;
                match a with
                | (sub, Some ErrSubExists) =>
                    Reply c ("this subscription (#" ++ Go.itoa (Sub_ID sub) ++ ") already exists!")
                | (_, Some err) => ret (Some err)
                | (sub, None) =>
                    Reply c ("subscription #" ++ Go.itoa (Sub_ID sub) ++ " created!")
                end
            end
        end
  end.

(** remove <id> *)
Definition remove (c : context R) : Cmd R :=
  p <- checkPrivilege c ;;
  match p with
  | (_, Some err) => ret (Some err)
  | (false, None) => ret None
  | (true, None) =>
      if negb (length (ctx_args c) =? 1)%nat then
        Reply c "**usage:** `remove <id>`; please omit spaces from arguments?!"
      else
        match Go.Atoi (arg c 0) with
        | None => Reply c msgIdNumber
        | Some id =>
            r <- query (GetSubscription (bot_c c) id) ;;
            match r with
            | Fail ErrNoRows => Reply c msgNotFound
            | Fail err => ret (Some err)
            | Ok sub =>
                if negb (String.eqb (Sub_GuildID sub) (Msg_GuildID (ctx_m c))) then
                  Reply c (msgOtherGuild id)
                else
                  _ <- update (WDestroySubscription id) (DestroySubscription (bot_c c) id) ;;
                  Reply c (msgDeleted id)
            end
        end
  end.

(** The first lines of the listing. *)
Definition listHeader (gc : GuildConfig) : string :=
  ("**Guild Contact:** `" ++ GC_Contact gc ++ "`" ++ nl
   ++ "**Embeds?** " ++ Go.fmtV (GC_Embeds gc) ++ nl
   ++ "**Webhooks?** " ++ Go.fmtV (GC_Webhooks gc) ++ nl ++ nl)
  ++ ("**Sub ID | Channel | Feed URI | Embed? | Webhook?" ++ nl ++ nl ++ "**").

(** The row of one subscription. *)
Definition listRow (s : Subscription) : string :=
  Go.itoa (Sub_ID s) ++ " | <#" ++ Sub_ChannelID s ++ "> | `"
  ++ Feed_URI (Sub_Feed s) ++ "` | "
  ++ fmtBool (Overwrite_Embeds (Sub_Overwrite s)) ++ " | "
  ++ fmtBool (Overwrite_Webhooks (Sub_Overwrite s)) ++ nl.

(** The loop of [list] over the subscriptions, [b] being the builder,
    and the reply that follows the loop. *)
Fixpoint listLoop (c : context R) (subs : list Subscription) (b : string)
    : Cmd R :=
  match subs with
  | [] => Reply c b
  | s :: rest =>
      let b := b ++ listRow s in
      if (1900 <? String.length b)%nat then
        err <- Reply c b ;;
        match err with
        | Some e => ret (Some e)
        | None => listLoop c rest EmptyString
        end
      else listLoop c rest b
  end.

(** list (the name [list] is the type of lists here) *)
Definition list_ (c : context R) : Cmd R :=
  p <- checkPrivilege c ;;
  match p with
  | (_, Some err) => ret (Some err)
  | (false, None) => ret None
  | (true, None) =>
      g <- query (GetGuildConfig (bot_c c) (Msg_GuildID (ctx_m c))) ;;
      match g with
      | Fail err => ret (Some err)
      | Ok gc =>
          ss <- query (GetSubscriptions (bot_c c) (Msg_GuildID (ctx_m c))) ;;
          match ss with
          | Fail err => ret (Some err)
          | Ok subs => listLoop c subs (listHeader gc)
          end
      end
  end.

(** The lookup of a subscription by [id] and the check of its guild,
    written alike in [set channel], [set embed] and [set webhook]; [k]
    is what the handler does with the subscription. *)
Definition withOwnSubscription (c : context R) (idArg : string)
    (k : Z -> Subscription -> Cmd R) : Cmd R :=
  match Go.Atoi idArg with
  | None => Reply c msgIdNumber
  | Some id =>
      r <- query (GetSubscription (bot_c c) id) ;;
      match r with
      | Fail ErrNoRows => Reply c msgNotFound
      | Fail err => ret (Some err)
      | Ok sub =>
          if negb (String.eqb (Sub_GuildID sub) (Msg_GuildID (ctx_m c))) then
            Reply c (msgOtherGuild id)
          else k id sub
      end
  end.

(** set channel <id> [channel] *)
Definition setChannel (c : context R) : Cmd R :=
  if (length (ctx_args c) <? 2)%nat then
    Reply c "**usage:** `set channel <id> [channel]`; please omit spaces from arguments?!"
  else
    match (if (length (ctx_args c) =? 3)%nat then channelOf (arg c 2)
           else Some (Msg_ChannelID (ctx_m c))) with
    | None => Reply c msgUseMention
    | Some channelID =>
        withOwnSubscription c (arg c 1) (fun id _ =>
          err <- update (WModifySubscriptionChannel id channelID)
                   (ModifySubscriptionChannel (bot_c c) id channelID) ;;
          match err with
          | Some e => ret (Some e)
          | None =>
              Reply c ("subscription #" ++ Go.itoa id ++ " will now write to <#"
                       ++ channelID ++ ">")
          end)
    end.

Definition msgBadContact : string :=
  "contact must be a user mention, user id, or channel mention; not a user name or channel name.".

(** The contact reference [set contact] stores for the token [a] of a
    message with the user mentions [mentions]; [None] when the token is
    refused. *)
Definition contactOf (a : string) (mentions : list User) : option string :=
  if Go.MatchString a then
    Some ("c:" ++ Go.slice a 2 (String.length a - 1))
  else
    match mentions with
    | u :: _ => Some ("u:" ++ User_ID u)
    | [] =>
        match Go.Atoi a with
        | Some _ => Some ("u:" ++ a)
        | None => None
        end
    end.

(** set contact <user|channel> *)
Definition setContact (c : context R) : Cmd R :=
  if negb (length (ctx_args c) =? 2)%nat then
    Reply c "**usage:** `set contact <user|channel>`; please use a user mention, user id, or channel mention, and omit spaces."
  else
    match contactOf (arg c 1) (Msg_Mentions (ctx_m c)) with
    | None => Reply c msgBadContact
    | Some id =>
        err <- update (WModifyGuildContact (Msg_GuildID (ctx_m c)) id)
                 (ModifyGuildContact (bot_c c) (Msg_GuildID (ctx_m c)) id) ;;
        match err with
        | Some e => ret (Some e)
        | None => Reply c "the guild's contact has been changed."
        end
    end.

Definition msgOnOff : string := "parameter must be one of on|off".
Definition msgInheritOverwrite : string :=
  "`inherit` is only a valid flag on overwrites, please specify on|off".

(** The body shared, word for word, by [setEmbed] and [setWebhook]:
    they differ in the usage text, in the two controller methods they
    call and in the noun of the final replies. *)
Definition setFlag (c : context R) (usage noun : string)
    (guildCall : string -> bool -> RepoWrite)
    (modifyGuild : string -> bool -> R -> option Err * R)
    (overwriteCall : Z -> sql.NullBool -> RepoWrite)
    (modifyOverwrite : Z -> sql.NullBool -> R -> option Err * R) : Cmd R :=
  if (length (ctx_args c) <? 2)%nat then Reply c usage
  else
    match parseFlag (arg c 1) with
    | None => Reply c msgOnOff
    | Some val =>
        let finish : Cmd R :=
          if sql.Bool val then
            Reply c ("feedbot will now post updates in this guild using " ++ noun
                     ++ ", unless overridden elsewhere.")
          else if sql.Valid val then
            Reply c ("feedbot will no longer post updates in this guild using " ++ noun
                     ++ ", unless overridden elsewhere.")
          else
            Reply c ("feedbot will default to the guild-wide behavior for " ++ noun ++ ".") in
        if (length (ctx_args c) =? 2)%nat then
          if negb (sql.Valid val) then Reply c msgInheritOverwrite
          else
            err <- update (guildCall (Msg_GuildID (ctx_m c)) (sql.Bool val))
                     (modifyGuild (Msg_GuildID (ctx_m c)) (sql.Bool val)) ;;
            match err with
            | Some e => ret (Some e)
            | None => finish
            end
        else
          withOwnSubscription c (arg c 2) (fun _ sub =>
            err <- update (overwriteCall (Sub_ID sub) val)
                     (modifyOverwrite (Sub_ID sub) val) ;;
            match err with
            | Some e => ret (Some e)
            | None => finish
            end)
    end.

(** set embed <on|off|inherit> [id] *)
Definition setEmbed (c : context R) : Cmd R :=
  setFlag c "**usage:** `set embed <on|off|inherit> [id]`" "embeds"
    WModifyGuildEmbeds (ModifyGuildEmbeds (bot_c c))
    WModifyOverwriteEmbeds (ModifyOverwriteEmbeds (bot_c c)).

(** set webhook <on|off> [id] *)
Definition setWebhook (c : context R) : Cmd R :=
  setFlag c "**usage:** `set webhook <on|off> [id]`" "webhooks"
    WModifyGuildWebhooks (ModifyGuildWebhooks (bot_c c))
    WModifyOverwriteWebhooks (ModifyOverwriteWebhooks (bot_c c)).

(** set <channel|contact|embed|webhook> [...] *)
Definition set (c : context R) : Cmd R :=
  p <- checkPrivilege c ;;
  match p with
  | (_, Some err) => ret (Some err)
  | (false, None) => ret None
  | (true, None) =>
      if (length (ctx_args c) =? 0)%nat then
        Reply c "**usage:** set <channel|contact|embed|webhook> ..., see help command."
      else
        let subCommand := arg c 0 in
        if String.eqb subCommand "channel" then setChannel c
        else if String.eqb subCommand "contact" then setContact c
        else if String.eqb subCommand "embed" then setEmbed c
        else if String.eqb subCommand "webhook" then setWebhook c
        else Reply c "subcommand must be one of channel|contact|embed|webhook, see help command."
  end.

(** dbg~migrate *)
Definition dbgMigrate (c : context R) : Cmd R :=
  fun w =>
    if negb (String.eqb (User_ID (Msg_Author (ctx_m c))) (owner w)) then
      (Done None, w)
    else
      match State_Guild (ctx_s c) (Msg_GuildID (ctx_m c)) with
      | Fail err => (Done (Some err), w)
      | Ok None =>
          (_ <- Reply c "couldn't find the guild not gonna try" ;;
           panic NilDereference) w
      | Ok (Some guild) =>
          (err <- update (WCreateGuildConfig (Guild_ID guild) ("u:" ++ Guild_OwnerID guild))
                    (CreateGuildConfig (bot_c c) (Guild_ID guild)
                       ("u:" ++ Guild_OwnerID guild)) ;;
           match err with
           | Some e => ret (Some e)
           | None => Reply c "gotem"
           end) w
      end.

(** ** The router *)

Definition mux (verb : string) : option (context R -> Cmd R) :=
  if String.eqb verb "help" then Some help
  else if String.eqb verb "add" then Some add
  else if String.eqb verb "remove" then Some remove
  else if String.eqb verb "list" then Some list_
  else if String.eqb verb "set" then Some set
  else if String.eqb verb "dbg~migrate" then Some dbgMigrate
  else None.

(** [User.Mention] of discordgo. *)
Definition Mention (u : User) : string := "<@" ++ User_ID u ++ ">".

(** onReady handles the Discord READY event; [u] is [m.User]. *)
Definition onReady (s : Session) (u : User) : M R unit :=
  fun w =>
    let w1 := mkWorld (sent w) (store w) (journal w) (logged w)
                (Mention u) (owner w) in
    match Session_Application s "@me" with
    | Fail err => (Panicked (PanicErr err), w1)
    | Ok apps =>
        (Done tt,
         mkWorld (sent w1) (store w1) (journal w1) (logged w1)
           (mentionPrefix w1) (User_ID (App_Owner apps)))
    end.

Definition println (line : LogLine) (w : World R) : World R :=
  mkWorld (sent w) (store w) (journal w) (logged w ++ [line])
    (mentionPrefix w) (owner w).

(** The text after the invocation prefix, when the message has one. *)
Definition invocation (w : World R) (m : MessageCreate) : option string :=
  if Go.HasPrefix (Msg_Content m) (mentionPrefix w) then
    Some (Go.sliceFrom (Msg_Content m) (String.length (mentionPrefix w)))
  else if Go.HasPrefix (Msg_Content m) prefix then
    Some (Go.sliceFrom (Msg_Content m) (String.length prefix))
  else None.

(** onMessageCreate handles the Discord MESSAGE_CREATE event. The
    deferred [recover] turns a panic of the handler into a log line, so
    the function itself always returns. *)
Definition onMessageCreate (bot : Controller R) (s : Session)
    (m : MessageCreate) (w : World R) : World R :=
  if User_Bot (Msg_Author m) then w
  else
    match invocation w m with
    | None => w
    | Some content =>
        let parts := Go.Split content in
        if (length parts <? 1)%nat then w
        else
          match mux (nth 0 parts "") with
          | None => w
          | Some f =>
              let args := if (1 <? length parts)%nat then tl parts else [] in
              match f (mkContext bot s m args) w with
              | (Panicked v, w') => println (LogPanic (nth 0 parts "") v) w'
              | (Done (Some err), w') => println (LogErr (nth 0 parts "") err) w'
              | (Done None, w') => w'
              end
          end
    end.

End Commands.

(** ** The skeleton of the command file *)

Module Skeleton.

(** The router of the skeleton (commands.go), where the handlers are
    not registered yet: [mux] maps the five verbs to nil, and the text
    after the prefix is cut from the variable [content] itself, which
    is still empty, instead of from [m.Content]. *)

(** A runtime panic that nothing recovers: [s[lo:]] with [lo] beyond the
    length [len] of [s]. *)
Inductive Fault : Type :=
| SliceBoundsOutOfRange (lo len : nat).

(** [s[lo:]] with the bounds check of the runtime. *)
Definition sliceFrom (s : string) (lo : nat) : Fault + string :=
  if (String.length s <? lo)%nat
  then inl (SliceBoundsOutOfRange lo (String.length s))
  else inr (Go.sliceFrom s lo).

(** [f, ok := mux[verb]]: [None] when the verb is no key, [Some None]
    for a key whose handler is nil. *)
Definition mux {R} (verb : string) : option (option (context R -> Cmd R)) :=
  if String.eqb verb "help" then Some None
  else if String.eqb verb "add" then Some None
  else if String.eqb verb "remove" then Some None
  else if String.eqb verb "list" then Some None
  else if String.eqb verb "set" then Some None
  else None.

(** onMessageCreate handles the Discord MESSAGE_CREATE event. The
    slices are taken before the recovery is deferred, so their panic
    leaves the function ([inl]); the call of a nil handler panics after
    it and is logged. *)
Definition onMessageCreate {R} (bot : Controller R) (s : Session)
    (m : MessageCreate) (w : World R) : Fault + World R :=
  if User_Bot (Msg_Author m) then inr w
  else
    let content := EmptyString in
    match (if Go.HasPrefix (Msg_Content m) (mentionPrefix w) then
             Some (sliceFrom content (String.length (mentionPrefix w)))
           else if Go.HasPrefix (Msg_Content m) prefix then
             Some (sliceFrom content (String.length prefix))
           else None) with
    | None => inr w
    | Some (inl fault) => inl fault
    | Some (inr content) =>
        let parts := Go.Split content in
        if (length parts <? 1)%nat then inr w
        else
          match mux (nth 0 parts "") with
          | None => inr w
          | Some None => inr (println (LogPanic (nth 0 parts "") NilDereference) w)
          | Some (Some f) =>
              let args := if (1 <? length parts)%nat then tl parts else [] in
              match f (mkContext bot s m args) w with
              | (Panicked v, w') => inr (println (LogPanic (nth 0 parts "") v) w')
              | (Done (Some err), w') => inr (println (LogErr (nth 0 parts "") err) w')
              | (Done None, w') => inr w'
              end
          end
    end.

End Skeleton.

(** ** An in-memory repository *)

Module Mem.

(** Modelled from the spec: the persistence layer behind [bot.c], which
    is not part of commands.go (section 6, Repository). Feeds are unique
    by URI, subscriptions by ID; a subscription that exists already is
    returned with [ErrSubExists], a missing one is [ErrNoRows]. [readOnly]
    stands for an infrastructure failure on the writing path: reads are
    served, every method that may write fails and writes nothing. *)
Record Store : Type := mkStore {
  feeds : list Feed;
  subs : list Subscription;
  configs : list (string * GuildConfig);
  nextID : Z;
  readOnly : bool
}.

Definition unavailable : Err := ErrOther "database is read-only".

Definition findFeed (uri : string) (st : Store) : option Feed :=
  find (fun f => String.eqb (Feed_URI f) uri) (feeds st).

Definition findSub (id : Z) (st : Store) : option Subscription :=
  find (fun s => Sub_ID s =? id) (subs st).

Definition findConfig (guild : string) (st : Store) : option GuildConfig :=
  option_map snd (find (fun p => String.eqb (fst p) guild) (configs st)).

Definition getOrCreateFeed (uri : string) (st : Store) : Res Feed * Store :=
  if readOnly st then (Fail unavailable, st)
  else
    match findFeed uri st with
    | Some f => (Ok f, st)
    | None =>
        let f := mkFeed (nextID st) uri in
        (Ok f, mkStore (feeds st ++ [f]) (subs st) (configs st)
                 (nextID st + 1) (readOnly st))
    end.

Definition noOverwrite : Overwrite :=
  mkOverwrite (sql.mkNullBool false false) (sql.mkNullBool false false).

Definition zeroSub : Subscription :=
  mkSubscription 0 "" "" (mkFeed 0 "") noOverwrite.

Definition addSubscription (channel guild : string) (feed : Z) (st : Store)
    : (Subscription * option Err) * Store :=
  if readOnly st then ((zeroSub, Some unavailable), st)
  else
    match find (fun s => (String.eqb (Sub_ChannelID s) channel
                          && String.eqb (Sub_GuildID s) guild
                          && (Feed_ID (Sub_Feed s) =? feed))%bool) (subs st) with
    | Some s => ((s, Some ErrSubExists), st)
    | None =>
        let uri := match find (fun f => Feed_ID f =? feed) (feeds st) with
                   | Some f => Feed_URI f
                   | None => ""
                   end in
        let s := mkSubscription (nextID st) guild channel (mkFeed feed uri)
                   noOverwrite in
        ((s, None), mkStore (feeds st) (subs st ++ [s]) (configs st)
                      (nextID st + 1) (readOnly st))
    end.

Definition getSubscription (id : Z) (st : Store) : Res Subscription :=
  match findSub id st with
  | Some s => Ok s
  | None => Fail ErrNoRows
  end.

Definition withSubs (st : Store) (l : list Subscription) : Store :=
  mkStore (feeds st) l (configs st) (nextID st) (readOnly st).

Definition withConfigs (st : Store) (l : list (string * GuildConfig)) : Store :=
  mkStore (feeds st) (subs st) l (nextID st) (readOnly st).

Definition destroySubscription (id : Z) (st : Store) : option Err * Store :=
  if readOnly st then (Some unavailable, st)
  else (None, withSubs st (filter (fun s => negb (Sub_ID s =? id)) (subs st))).

Definition getSubscriptions (guild : string) (st : Store)
    : Res (list Subscription) :=
  Ok (filter (fun s => String.eqb (Sub_GuildID s) guild) (subs st)).

Definition getGuildConfig (guild : string) (st : Store) : Res GuildConfig :=
  match findConfig guild st with
  | Some gc => Ok gc
  | None => Fail ErrNoRows
  end.

Definition mapSub (id : Z) (f : Subscription -> Subscription) (st : Store)
    : option Err * Store :=
  if readOnly st then (Some unavailable, st)
  else (None, withSubs st (map (fun s => if Sub_ID s =? id then f s else s)
                             (subs st))).

Definition mapConfig (guild : string) (f : GuildConfig -> GuildConfig)
    (st : Store) : option Err * Store :=
  if readOnly st then (Some unavailable, st)
  else (None, withConfigs st
                (map (fun p => if String.eqb (fst p) guild
                               then (fst p, f (snd p)) else p) (configs st))).

Definition createGuildConfig (guild contact : string) (st : Store)
    : option Err * Store :=
  if readOnly st then (Some unavailable, st)
  else (None, withConfigs st
                (configs st ++ [(guild, mkGuildConfig contact false false)])).

Definition controller : Controller Store :=
  mkController Store
    getOrCreateFeed addSubscription getSubscription destroySubscription
    getSubscriptions getGuildConfig
    (fun id ch => mapSub id (fun s =>
       mkSubscription (Sub_ID s) (Sub_GuildID s) ch (Sub_Feed s) (Sub_Overwrite s)))
    (fun g ct => mapConfig g (fun gc =>
       mkGuildConfig ct (GC_Embeds gc) (GC_Webhooks gc)))
    (fun g v => mapConfig g (fun gc =>
       mkGuildConfig (GC_Contact gc) v (GC_Webhooks gc)))
    (fun g v => mapConfig g (fun gc =>
       mkGuildConfig (GC_Contact gc) (GC_Embeds gc) v))
    (fun id v => mapSub id (fun s =>
       mkSubscription (Sub_ID s) (Sub_GuildID s) (Sub_ChannelID s) (Sub_Feed s)
         (mkOverwrite v (Overwrite_Webhooks (Sub_Overwrite s)))))
    (fun id v => mapSub id (fun s =>
       mkSubscription (Sub_ID s) (Sub_GuildID s) (Sub_ChannelID s) (Sub_Feed s)
         (mkOverwrite (Overwrite_Embeds (Sub_Overwrite s)) v)))
    createGuildConfig.

End Mem.

(** ** A small guild to run the commands in *)

Module Demo.

Definition admin : User := mkUser "100" false.
Definition guest : User := mkUser "200" false.

(** The state cache knows both members and the two roles of guild
    [g1]; role [mods] is known to the live directory only. *)
Definition session : Session :=
  mkSession
    (fun g u =>
       if String.eqb u "100" then Ok (mkMember ["everyone"; "admins"])
       else if String.eqb u "200" then Ok (mkMember ["everyone"])
       else if String.eqb u "300" then Ok (mkMember ["mods"])
       else Fail (ErrOther "state cache miss"))
    (fun g u => Fail (ErrOther "unknown member"))
    (fun g r =>
       if String.eqb r "everyone" then Ok (mkRole 1024)
       else if String.eqb r "admins" then Ok (mkRole 8)
       else Fail (ErrOther "state cache miss"))
    (fun g r =>
       if String.eqb r "mods" then Ok (mkRole 8)
       else Fail (ErrOther "unknown role"))
    (fun g => Ok None)
    (fun _ => Fail (ErrOther "gateway timeout"))
    (fun _ _ => None).

Definition sub7 : Subscription :=
  mkSubscription 7 "g1" "55" (mkFeed 1 "https://example.com/feed.xml")
    Mem.noOverwrite.

Definition store0 : Mem.Store :=
  Mem.mkStore [mkFeed 1 "https://example.com/feed.xml"] [sub7]
    [("g1", mkGuildConfig "u:100" true false)] 8 false.

Definition world0 : World Mem.Store := mkWorld [] store0 [] [] "<@0>" "<@0>".

(** The same store when the database refuses writes. *)
Definition storeRO : Mem.Store :=
  Mem.mkStore (Mem.feeds store0) (Mem.subs store0) (Mem.configs store0)
    (Mem.nextID store0) true.

Definition worldRO : World Mem.Store := mkWorld [] storeRO [] [] "<@0>" "<@0>".

(** A world whose [owner] is the demo administrator. *)
Definition worldOwned : World Mem.Store := mkWorld [] store0 [] [] "<@0>" "100".

Definition message (g : string) (author : User) (text : string) : MessageCreate :=
  mkMessage "55" g text author [].

(** Guild [g3] holds sixty subscriptions, more than one reply takes. *)
Definition manySubs : list Subscription :=
  map (fun i => mkSubscription (Z.of_nat i) "g3" "55"
                  (mkFeed 1 "https://example.com/feed.xml") Mem.noOverwrite)
      (seq 1 60).

Definition config3 : GuildConfig := mkGuildConfig "u:100" true false.

Definition storeBig : Mem.Store :=
  Mem.mkStore [mkFeed 1 "https://example.com/feed.xml"] manySubs
    [("g3", config3)] 61 false.

Definition worldBig : World Mem.Store := mkWorld [] storeBig [] [] "<@0>" "<@0>".

(** The demo session once the application endpoint answers. *)
Definition sessionOnline : Session :=
  mkSession (State_Member session) (GuildMember session) (State_Role session)
    (GuildRole session) (State_Guild session)
    (fun _ => Ok (mkApplication (mkUser "100" false)))
    (ChannelMessageSend session).

(** A message of the administrator that mentions the guest. *)
Definition mentioning (text : string) : MessageCreate :=
  mkMessage "55" "g1" text admin [guest].

(** The context the router builds for [text] sent by [author] in guild
    [g] with the arguments [args]. *)
Definition ctxOf (g : string) (author : User) (text : string)
    (args : list string) : context Mem.Store :=
  mkContext Mem.controller session (message g author text) args.

End Demo.


(** ** The permission checker in the words of the specification *)

(** The member lookup as the code does it: the state cache first, the
    live directory on a miss. *)
Definition resolveMember (s : Session) (guildID userID : string) : Res Member :=
  match State_Member s guildID userID with
  | Ok member => Ok member
  | Fail _ => GuildMember s guildID userID
  end.

(** The role lookup in the words of the specification: the state cache
    first, the live directory on a miss. *)
Definition resolveRole_spec (s : Session) (guildID roleID : string) : Res Role :=
  match State_Role s guildID roleID with
  | Ok role => Ok role
  | Fail _ => GuildRole s guildID roleID
  end.

(** [memberHasPermission] in the words of the specification: both
    lookups are cache-first with a live fallback. *)
Fixpoint anyRoleGrants_spec (s : Session) (guildID : string)
    (roles : list string) (permission : Z) : bool * option Err :=
  match roles with
  | [] => (false, None)
  | roleID :: rest =>
      match resolveRole_spec s guildID roleID with
      | Fail err => (false, Some err)
      | Ok role =>
          if negb (Z.land (Role_Permissions role) permission =? 0)
          then (true, None)
          else anyRoleGrants_spec s guildID rest permission
      end
  end.

Definition memberHasPermission_spec (s : Session) (guildID userID : string)
    (permission : Z) : bool * option Err :=
  match resolveMember s guildID userID with
  | Fail err => (false, Some err)
  | Ok member => anyRoleGrants_spec s guildID (Member_Roles member) permission
  end.

(** The session [s] with another live role directory. *)
Definition withGuildRole (s : Session) (live : string -> string -> Res Role)
    : Session :=
  mkSession (State_Member s) (GuildMember s) (State_Role s) live
    (State_Guild s) (Session_Application s) (ChannelMessageSend s).

(** ** Conditions and outcomes the properties are stated with *)

(** The transport delivers every message. *)
Definition reliable (s : Session) : Prop :=
  forall ch m, ChannelMessageSend s ch m = None.

(** The directory answers for the author of the message, who does
    ([ok = true]) or does not hold the administrator permission. *)
Definition gate (s : Session) (m : MessageCreate) (ok : bool) : Prop :=
  memberHasPermission s (Msg_GuildID m) (User_ID (Msg_Author m))
    PermissionAdministrator = (ok, None).

(** The world after the permission check: the rejection is delivered to
    a member without the permission. *)
Definition afterGate {R} (m : MessageCreate) (ok : bool) (w : World R)
    : World R :=
  if ok then w else deliver (Msg_ChannelID m) adminOnly w.

(** The replies of the loop of [list] for the rows [rows], [b] being the
    builder: a row is appended, the builder is sent and emptied once it
    is longer than 1900, and what is left is sent after the last row. *)
Fixpoint pages (rows : list string) (b : string) : list string :=
  match rows with
  | [] => [b]
  | r :: rest =>
      if (1900 <? String.length (b ++ r))%nat then (b ++ r) :: pages rest ""
      else pages rest (b ++ r)
  end.

(** The texts of [l] one after the other. *)
Definition joined (l : list string) : string := fold_right append "" l.

(** The world once the texts [ps] are delivered to [ch], in order. *)
Definition deliverAll {R} (ch : string) (ps : list string) (w : World R)
    : World R :=
  fold_left (fun w p => deliver ch p w) ps w.

(** ** Frames: what a command leaves alone *)

(** The repository is as before: no controller method that writes was
    called and the store is the same. *)
Definition sameRepository {R} (w w' : World R) : Prop :=
  store w' = store w /\ journal w' = journal w.

(** The package variables and the log are as before. *)
Definition sameSession {R} (w w' : World R) : Prop :=
  mentionPrefix w' = mentionPrefix w /\ owner w' = owner w
  /\ logged w' = logged w.

(** Messages were delivered to the channel [ch] only, after the ones
    delivered before. *)
Definition repliesTo {R} (ch : string) (w w' : World R) : Prop :=
  exists l, sent w' = (sent w ++ l)%list /\ Forall (fun p => fst p = ch) l.

(** The computation [c] keeps the relation [P] between the world it
    starts in and the world it ends in, however it ends. *)
Definition preserves {R A} (P : World R -> World R -> Prop) (c : M R A) : Prop :=
  forall w, P w (snd (c w)).

(** A relation that replies to the channel [ch] keep. *)
Class Frame {R} (ch : string) (P : World R -> World R -> Prop) : Prop := {
  frame_refl : forall w, P w w;
  frame_trans : forall a b c, P a b -> P b c -> P a c;
  frame_deliver : forall m w, P w (deliver ch m w)
}.

(** A relation that calls of writing controller methods keep. *)
Class FrameUpdate {R} (P : World R -> World R -> Prop) : Prop := {
  frame_update : forall w st call,
    P w (mkWorld (sent w) st (journal w ++ [call]) (logged w)
           (mentionPrefix w) (owner w))
}.

(** The role [roleID] is in the state cache and carries a bit of
    [permission]. *)
Definition cachedRoleGrants (s : Session) (guildID : string) (permission : Z)
    (roleID : string) : bool :=
  match State_Role s guildID roleID with
  | Ok role => negb (Z.land (Role_Permissions role) permission =? 0)
  | Fail _ => false
  end.

(** The world once the controller method recorded as [call] has
    returned the store [st]. *)
Definition written {R} (call : RepoWrite) (st : R) (w : World R) : World R :=
  mkWorld (sent w) st (journal w ++ [call]) (logged w)
    (mentionPrefix w) (owner w).

(** The value of a decimal numeral read from its most significant
    digit, [acc] being the value of the digits read before. *)
Fixpoint uintVal (acc : Z) (d : Decimal.uint) : Z :=
  match d with
  | Decimal.Nil => acc
  | Decimal.D0 l => uintVal (acc * 10 + 0) l
  | Decimal.D1 l => uintVal (acc * 10 + 1) l
  | Decimal.D2 l => uintVal (acc * 10 + 2) l
  | Decimal.D3 l => uintVal (acc * 10 + 3) l
  | Decimal.D4 l => uintVal (acc * 10 + 4) l
  | Decimal.D5 l => uintVal (acc * 10 + 5) l
  | Decimal.D6 l => uintVal (acc * 10 + 6) l
  | Decimal.D7 l => uintVal (acc * 10 + 7) l
  | Decimal.D8 l => uintVal (acc * 10 + 8) l
  | Decimal.D9 l => uintVal (acc * 10 + 9) l
  end.

(** The texts of [l] with one space between neighbours
    ([strings.Join(l, " ")]). *)
Fixpoint joinSpaces (l : list string) : string :=
  match l with
  | [] => ""
  | [x] => x
  | x :: rest => x ++ " " ++ joinSpaces rest
  end.

(** [strings.Contains(s, " ")]. *)
Fixpoint hasSpace (s : string) : bool :=
  match s with
  | EmptyString => false
  | String c rest => (Ascii.eqb c Go.space || hasSpace rest)%bool
  end.

(** The last reply of [set embed] ([noun] is [embeds]) and of
    [set webhook] ([webhooks]) for the value [val]. *)
Definition flagReply (noun : string) (val : sql.NullBool) : string :=
  if sql.Bool val then
    "feedbot will now post updates in this guild using " ++ noun
    ++ ", unless overridden elsewhere."
  else if sql.Valid val then
    "feedbot will no longer post updates in this guild using " ++ noun
    ++ ", unless overridden elsewhere."
  else "feedbot will default to the guild-wide behavior for " ++ noun ++ ".".

(** * Properties *)

(** ** The tri-state flag *)

Lemma fmtBool_parseFlag_on : option_map fmtBool (parseFlag "on") = Some "on".
Proof. reflexivity. Qed.

Lemma fmtBool_parseFlag_inherit :
  option_map fmtBool (parseFlag "inherit") = Some "inherit".
Proof. reflexivity. Qed.

(** C2: the round trip [format (parse t) = t] fails at [t = off]:
    [parseFlag] reads [off] as the definite false, which [fmtBool]
    prints as [false]; so [off] is not reproduced. *)
Theorem fmtBool_parseFlag_off :
  parseFlag "off" = Some (sql.mkNullBool false true)
  /\ fmtBool (sql.mkNullBool false true) = "false"
  /\ option_map fmtBool (parseFlag "off") <> Some "off".
Proof.
  repeat split. discriminate.
Qed.

(** ** The permission checker *)

(** Whatever the member's roles are, [checkPrivilege] never answers
    [false] without an error: its last statement returns [true]. *)
Lemma checkPrivilege_true_or_error {R} (c : context R) (w w' : World R) ok :
  checkPrivilege c w = (Done (ok, None), w') -> ok = true.
Proof.
  unfold checkPrivilege.
  destruct (memberHasPermission _ _ _ _) as [b [e|]]; cbn.
  - discriminate.
  - destruct b; cbn.
    + intros H; inversion H; reflexivity.
    + unfold bind, Reply.
      destruct (ChannelMessageSend _ _ _); cbn; intros H; inversion H; reflexivity.
Qed.

(** C1: a member without the administrator bit sends [remove 7]. The
    member has no permission, and the rejection is sent, yet
    [checkPrivilege] answers [true]; [remove] goes on, the subscription
    is destroyed and its deletion is reported. *)
Theorem remove_by_non_administrator :
  let c := Demo.ctxOf "g1" Demo.guest "/feed:remove 7" ["7"] in
  memberHasPermission Demo.session "g1" "200" PermissionAdministrator
    = (false, None)
  /\ checkPrivilege c Demo.world0
     = (Done (true, None), deliver "55" adminOnly Demo.world0)
  /\ fst (remove c Demo.world0) = Done None
  /\ sent (snd (remove c Demo.world0))
     = [("55", adminOnly); ("55", "subscription #7 has been deleted.")]
  /\ journal (snd (remove c Demo.world0)) = [WDestroySubscription 7]
  /\ Mem.subs (store Demo.world0) = [Demo.sub7]
  /\ Mem.subs (store (snd (remove c Demo.world0))) = [].
Proof.
  cbv zeta. repeat split; vm_compute; reflexivity.
Qed.

(** C4: the database refuses writes and an administrator sends
    [remove 7]. [DestroySubscription] fails, the subscription stays,
    yet [remove] reports the deletion and returns nil, so the router
    logs nothing. *)
Theorem remove_drops_destroy_error :
  let c := Demo.ctxOf "g1" Demo.admin "/feed:remove 7" ["7"] in
  let m := Demo.message "g1" Demo.admin "/feed:remove 7" in
  DestroySubscription Mem.controller 7 Demo.storeRO
    = (Some Mem.unavailable, Demo.storeRO)
  /\ fst (remove c Demo.worldRO) = Done None
  /\ sent (snd (remove c Demo.worldRO))
     = [("55", "subscription #7 has been deleted.")]
  /\ Mem.subs (store (snd (remove c Demo.worldRO))) = [Demo.sub7]
  /\ logged (onMessageCreate Mem.controller Demo.session m Demo.worldRO) = []
  /\ sent (onMessageCreate Mem.controller Demo.session m Demo.worldRO)
     = [("55", "subscription #7 has been deleted.")].
Proof.
  cbv zeta. repeat split; vm_compute; reflexivity.
Qed.

(** The sibling handler [set channel] does return the error of its
    write: nothing is replied and the router logs the error under the
    verb. *)
Example setChannel_returns_write_error :
  let m := Demo.message "g1" Demo.admin "/feed:set channel 7" in
  let w := onMessageCreate Mem.controller Demo.session m Demo.worldRO in
  sent w = [] /\ logged w = [LogErr "set" Mem.unavailable].
Proof. cbv zeta. split; vm_compute; reflexivity. Qed.

(** ** Role lookup in [memberHasPermission] *)

Lemma memberHasPermission_resolveMember s guildID userID permission :
  memberHasPermission s guildID userID permission =
  match resolveMember s guildID userID with
  | Fail err => (false, Some err)
  | Ok member => anyRoleGrants s guildID (Member_Roles member) permission
  end.
Proof.
  unfold memberHasPermission, resolveMember.
  destruct (State_Member s guildID userID); [reflexivity|].
  destruct (GuildMember s guildID userID); reflexivity.
Qed.

(** The roles before the first cache miss carry nothing: the miss is
    what the loop returns. *)
Lemma anyRoleGrants_miss s guildID permission err :
  forall pre roleID post,
    (forall r, In r pre ->
       exists role, State_Role s guildID r = Ok role
                    /\ Z.land (Role_Permissions role) permission = 0) ->
    State_Role s guildID roleID = Fail err ->
    anyRoleGrants s guildID (pre ++ roleID :: post)%list permission
    = (false, Some err).
Proof.
  induction pre as [|r pre IH]; intros roleID post Hpre Hmiss; cbn.
  - rewrite Hmiss. reflexivity.
  - destruct (Hpre r (or_introl eq_refl)) as [role [Hr Hland]].
    rewrite Hr, Hland. cbn.
    apply IH; [|assumption].
    intros r' Hin. apply Hpre. right. assumption.
Qed.

(** C3 (as the code has it): the member is looked up in the state cache
    first and in the live directory on a miss, and the failure of both
    is returned; a role is looked up in the state cache only. When the
    cache misses a role that the loop reaches, the error of the cache
    is returned whatever the live directory [live] holds for that
    role. *)
Theorem memberHasPermission_role_cache_only
    (s : Session) (live : string -> string -> Res Role)
    (guildID userID : string) (permission : Z)
    (member : Member) (pre post : list string) (roleID : string) (err : Err)
    (Hmember : resolveMember s guildID userID = Ok member)
    (Hroles : Member_Roles member = (pre ++ roleID :: post)%list)
    (Hpre : forall r, In r pre ->
       exists role, State_Role s guildID r = Ok role
                    /\ Z.land (Role_Permissions role) permission = 0)
    (Hmiss : State_Role s guildID roleID = Fail err) :
  memberHasPermission (withGuildRole s live) guildID userID permission
  = (false, Some err)
  /\ (forall e1 e2 u,
        State_Member s guildID u = Fail e1 ->
        GuildMember s guildID u = Fail e2 ->
        memberHasPermission s guildID u permission = (false, Some e2))
  /\ (forall e1 m u,
        State_Member s guildID u = Fail e1 ->
        GuildMember s guildID u = Ok m ->
        memberHasPermission s guildID u permission
        = anyRoleGrants s guildID (Member_Roles m) permission).
Proof.
  split; [|split].
  - rewrite memberHasPermission_resolveMember.
    change (resolveMember (withGuildRole s live) guildID userID)
      with (resolveMember s guildID userID).
    rewrite Hmember, Hroles.
    apply anyRoleGrants_miss; assumption.
  - intros e1 e2 u H1 H2. unfold memberHasPermission. rewrite H1, H2. reflexivity.
  - intros e1 m u H1 H2. unfold memberHasPermission. rewrite H1, H2. reflexivity.
Qed.

(** In the demo guild member 300 holds the role [mods], which only the
    live directory knows. *)
Lemma memberHasPermission_role_cache_only_witness :
  memberHasPermission (withGuildRole Demo.session (GuildRole Demo.session))
    "g1" "300" PermissionAdministrator
  = (false, Some (ErrOther "state cache miss")).
Proof.
  apply (memberHasPermission_role_cache_only Demo.session
           (GuildRole Demo.session) "g1" "300" PermissionAdministrator
           (mkMember ["mods"]) [] [] "mods" (ErrOther "state cache miss")).
  - reflexivity.
  - reflexivity.
  - intros r H. destruct H.
  - reflexivity.
Defined.

(** C3 (as the specification has it) fails: the role [mods] of member
    300 is missed by the cache and held, with the administrator bit, by
    the live directory; a fallback would authorize the member, the code
    returns the cache's error. *)
Lemma memberHasPermission_no_role_fallback :
  State_Role Demo.session "g1" "mods" = Fail (ErrOther "state cache miss")
  /\ GuildRole Demo.session "g1" "mods" = Ok (mkRole 8)
  /\ memberHasPermission_spec Demo.session "g1" "300" PermissionAdministrator
     = (true, None)
  /\ memberHasPermission Demo.session "g1" "300" PermissionAdministrator
     = (false, Some (ErrOther "state cache miss"))
  /\ memberHasPermission Demo.session "g1" "300" PermissionAdministrator
     <> memberHasPermission_spec Demo.session "g1" "300" PermissionAdministrator.
Proof.
  repeat split; try reflexivity. vm_compute. discriminate.
Qed.

(** ** Panics and the recovery boundary *)

(** A panic of the handler never leaves [onMessageCreate]: the deferred
    function recovers it and logs it under the verb. *)
Lemma onMessageCreate_recovers {R} (bot : Controller R) (s : Session)
    (m : MessageCreate) (w w' : World R) content f v :
  User_Bot (Msg_Author m) = false ->
  invocation w m = Some content ->
  mux (nth 0 (Go.Split content) "") = Some f ->
  f (mkContext bot s m (tl (Go.Split content))) w = (Panicked v, w') ->
  onMessageCreate bot s m w
  = println (LogPanic (nth 0 (Go.Split content) "") v) w'.
Proof.
  intros Hbot Hinv Hmux Hrun.
  unfold onMessageCreate. rewrite Hbot, Hinv.
  destruct (Go.Split content) as [|verb rest] eqn:Hparts.
  - cbn in Hmux. discriminate.
  - cbn [length nth tl] in *. rewrite Hmux.
    destruct rest as [|a rest]; cbn [length Nat.ltb Nat.leb tl] in *.
    + rewrite Hrun. reflexivity.
    + rewrite Hrun. reflexivity.
Qed.

(** [dbg~migrate] dereferences a nil guild; inside the router the panic
    becomes a log line. *)
Example dbgMigrate_panic_is_recovered :
  let m := Demo.message "g1" Demo.admin "/feed:dbg~migrate" in
  fst (dbgMigrate (Demo.ctxOf "g1" Demo.admin "/feed:dbg~migrate" []) Demo.worldOwned)
  = Panicked NilDereference
  /\ logged (onMessageCreate Mem.controller Demo.session m Demo.worldOwned)
     = [LogPanic "dbg~migrate" NilDereference].
Proof. cbv zeta. split; vm_compute; reflexivity. Qed.

(** C10: when the directory call for the application fails, [onReady]
    panics with that error, after it has set [mentionPrefix] and before
    it sets [owner]. Nothing recovers the panic and nothing is logged:
    the only recovery in the program is the one [onMessageCreate]
    installs around a handler, where a panic [v] of the handler [f]
    becomes the line [cmd:verb pnc:v]. *)
Theorem onReady_panics_unrecovered {R} (s : Session) (u : User)
    (w : World R) (err : Err)
    (Hfail : Session_Application s "@me" = Fail err) :
  onReady s u w
  = (Panicked (PanicErr err),
     mkWorld (sent w) (store w) (journal w) (logged w) (Mention u) (owner w))
  /\ logged (snd (onReady s u w)) = logged w
  /\ (forall (bot : Controller R) (m : MessageCreate) (w0 w' : World R)
        content f v,
        User_Bot (Msg_Author m) = false ->
        invocation w0 m = Some content ->
        mux (nth 0 (Go.Split content) "") = Some f ->
        f (mkContext bot s m (tl (Go.Split content))) w0 = (Panicked v, w') ->
        onMessageCreate bot s m w0
        = println (LogPanic (nth 0 (Go.Split content) "") v) w').
Proof.
  assert (Hrun : onReady s u w
                 = (Panicked (PanicErr err),
                    mkWorld (sent w) (store w) (journal w) (logged w)
                      (Mention u) (owner w))).
  { unfold onReady. rewrite Hfail. reflexivity. }
  split; [exact Hrun|]. split.
  - rewrite Hrun. reflexivity.
  - intros bot m w0 w1 content f v Hbot Hinv Hmux Hrun0.
    exact (onMessageCreate_recovers bot s m w0 w1 content f v Hbot Hinv Hmux Hrun0).
Qed.

(** The demo session cannot reach the application endpoint. *)
Lemma onReady_panics_unrecovered_witness :
  onReady Demo.session (mkUser "42" true) Demo.world0
  = (Panicked (PanicErr (ErrOther "gateway timeout")),
     mkWorld [] Demo.store0 [] [] "<@42>" "<@0>").
Proof.
  apply (onReady_panics_unrecovered Demo.session (mkUser "42" true)
           Demo.world0 (ErrOther "gateway timeout")).
  reflexivity.
Defined.

(** ** Running the handlers *)

Lemma Reply_reliable {R} (c : context R) m (w : World R) :
  reliable (ctx_s c) ->
  Reply c m w = (Done None, deliver (Msg_ChannelID (ctx_m c)) m w).
Proof. intros H. unfold Reply. rewrite H. reflexivity. Qed.

Lemma Reply_keeps_repository {R} (c : context R) m (w : World R) :
  store (snd (Reply c m w)) = store w
  /\ journal (snd (Reply c m w)) = journal w.
Proof.
  unfold Reply. destruct (ChannelMessageSend _ _ _); split; reflexivity.
Qed.

Lemma checkPrivilege_reliable {R} (c : context R) ok (w : World R) :
  reliable (ctx_s c) -> gate (ctx_s c) (ctx_m c) ok ->
  checkPrivilege c w = (Done (true, None), afterGate (ctx_m c) ok w).
Proof.
  intros Hs Hg. unfold checkPrivilege. rewrite Hg.
  destruct ok; cbn; [reflexivity|].
  unfold bind. rewrite Reply_reliable by assumption. reflexivity.
Qed.

Lemma afterGate_repository {R} (c : context R) ok (w : World R) :
  store (afterGate (ctx_m c) ok w) = store w /\ journal (afterGate (ctx_m c) ok w) = journal w.
Proof. destruct ok; split; reflexivity. Qed.

(** [set] hands over to the handler of its subcommand. *)
Lemma set_dispatch {R} (c : context R) ok (w : World R) sub rest :
  reliable (ctx_s c) -> gate (ctx_s c) (ctx_m c) ok ->
  ctx_args c = sub :: rest ->
  set c w =
  (if String.eqb sub "channel" then setChannel c
   else if String.eqb sub "contact" then setContact c
   else if String.eqb sub "embed" then setEmbed c
   else if String.eqb sub "webhook" then setWebhook c
   else Reply c "subcommand must be one of channel|contact|embed|webhook, see help command.")
    (afterGate (ctx_m c) ok w).
Proof.
  intros Hs Hg Hargs. unfold set, bind.
  rewrite (checkPrivilege_reliable c ok w Hs Hg).
  unfold arg. rewrite Hargs. cbn [length Nat.eqb nth]. reflexivity.
Qed.

(** ** [inherit] as a guild-wide setting *)

Lemma setFlag_inherit_guild {R} (c : context R) (w : World R) usage noun
    gc mg oc mo sub :
  ctx_args c = [sub; "inherit"] ->
  setFlag c usage noun gc mg oc mo w = Reply c msgInheritOverwrite w.
Proof.
  intros Hargs. unfold setFlag, arg. rewrite Hargs. reflexivity.
Qed.

(** C6: [set embed inherit] and [set webhook inherit] without a
    subscription ID, in any guild and over any repository: the handler
    does nothing but reply that [inherit] is only valid on overwrites.
    No controller method is called, the store is as before, and with a
    transport that delivers the handler returns nil, also through
    [set], whose permission check has sent its rejection to a member
    without the permission ([afterGate]). *)
Theorem inherit_rejected_guild_wide {R} (c : context R) (w : World R)
    (sub : string) (ok : bool)
    (Hargs : ctx_args c = [sub; "inherit"]) :
  setEmbed c w = Reply c msgInheritOverwrite w
  /\ setWebhook c w = Reply c msgInheritOverwrite w
  /\ store (snd (setEmbed c w)) = store w
  /\ journal (snd (setEmbed c w)) = journal w
  /\ store (snd (setWebhook c w)) = store w
  /\ journal (snd (setWebhook c w)) = journal w
  /\ (reliable (ctx_s c) -> gate (ctx_s c) (ctx_m c) ok ->
      sub = "embed" \/ sub = "webhook" ->
      set c w
      = (Done None,
         deliver (Msg_ChannelID (ctx_m c)) msgInheritOverwrite (afterGate (ctx_m c) ok w))).
Proof.
  assert (He : setEmbed c w = Reply c msgInheritOverwrite w)
    by (apply setFlag_inherit_guild with (sub := sub); assumption).
  assert (Hw : setWebhook c w = Reply c msgInheritOverwrite w)
    by (apply setFlag_inherit_guild with (sub := sub); assumption).
  repeat split; try assumption.
  - rewrite He. apply Reply_keeps_repository.
  - rewrite He. apply Reply_keeps_repository.
  - rewrite Hw. apply Reply_keeps_repository.
  - rewrite Hw. apply Reply_keeps_repository.
  - intros Hs Hg Hsub.
    rewrite (set_dispatch c ok w sub ["inherit"] Hs Hg Hargs).
    destruct Hsub; subst sub; cbn [String.eqb Ascii.eqb Bool.eqb].
    + unfold setEmbed.
      rewrite (setFlag_inherit_guild c _ _ _ _ _ _ _ "embed" Hargs).
      apply Reply_reliable. assumption.
    + unfold setWebhook.
      rewrite (setFlag_inherit_guild c _ _ _ _ _ _ _ "webhook" Hargs).
      apply Reply_reliable. assumption.
Qed.

Lemma inherit_rejected_guild_wide_witness :
  let c := Demo.ctxOf "g1" Demo.admin "/feed:set embed inherit" ["embed"; "inherit"] in
  setEmbed c Demo.world0 = Reply c msgInheritOverwrite Demo.world0
  /\ Mem.configs (store (snd (set c Demo.world0))) = Mem.configs Demo.store0
  /\ set c Demo.world0
     = (Done None, deliver "55" msgInheritOverwrite Demo.world0).
Proof.
  cbv zeta.
  destruct (inherit_rejected_guild_wide
              (Demo.ctxOf "g1" Demo.admin "/feed:set embed inherit" ["embed"; "inherit"])
              Demo.world0 "embed" true eq_refl)
    as (He & _ & _ & _ & _ & _ & Hset).
  assert (H := Hset (fun _ _ => eq_refl) eq_refl (or_introl eq_refl)).
  split; [exact He|]. split; [rewrite H; reflexivity | exact H].
Defined.

(** ** Subscriptions of another guild *)

Lemma withOwnSubscription_other_guild {R} (c : context R) (w : World R)
    idArg id sub k :
  Go.Atoi idArg = Some id ->
  GetSubscription (bot_c c) id (store w) = Ok sub ->
  Sub_GuildID sub <> Msg_GuildID (ctx_m c) ->
  withOwnSubscription c idArg k w = Reply c (msgOtherGuild id) w.
Proof.
  intros Hid Hsub Hguild. unfold withOwnSubscription. rewrite Hid.
  unfold bind, query. rewrite Hsub.
  apply String.eqb_neq in Hguild. rewrite Hguild. reflexivity.
Qed.

Lemma remove_other_guild {R} (c : context R) (w : World R) ok idArg id sub :
  reliable (ctx_s c) -> gate (ctx_s c) (ctx_m c) ok ->
  ctx_args c = [idArg] ->
  Go.Atoi idArg = Some id ->
  GetSubscription (bot_c c) id (store w) = Ok sub ->
  Sub_GuildID sub <> Msg_GuildID (ctx_m c) ->
  remove c w
  = (Done None,
     deliver (Msg_ChannelID (ctx_m c)) (msgOtherGuild id) (afterGate (ctx_m c) ok w)).
Proof.
  intros Hs Hg Hargs Hid Hsub Hguild. unfold remove, bind.
  rewrite (checkPrivilege_reliable c ok w Hs Hg).
  unfold arg. rewrite Hargs. cbn [length Nat.eqb negb nth]. rewrite Hid.
  unfold query.
  replace (store (afterGate (ctx_m c) ok w)) with (store w)
    by (symmetry; apply afterGate_repository).
  rewrite Hsub. apply String.eqb_neq in Hguild. rewrite Hguild. cbn [negb].
  apply Reply_reliable. assumption.
Qed.

Lemma setChannel_other_guild {R} (c : context R) (w : World R) idArg id sub more :
  reliable (ctx_s c) ->
  ctx_args c = "channel" :: idArg :: more ->
  (forall a, more = [a] -> Go.MatchString a = true) ->
  Go.Atoi idArg = Some id ->
  GetSubscription (bot_c c) id (store w) = Ok sub ->
  Sub_GuildID sub <> Msg_GuildID (ctx_m c) ->
  setChannel c w
  = (Done None, deliver (Msg_ChannelID (ctx_m c)) (msgOtherGuild id) w).
Proof.
  intros Hs Hargs Hmore Hid Hsub Hguild. unfold setChannel, arg.
  rewrite Hargs. cbn [length Nat.ltb Nat.leb nth].
  assert (Hk : forall k,
             withOwnSubscription c idArg k w
             = (Done None, deliver (Msg_ChannelID (ctx_m c)) (msgOtherGuild id) w)).
  { intros k.
    rewrite (withOwnSubscription_other_guild c w idArg id sub k Hid Hsub Hguild).
    apply Reply_reliable. assumption. }
  destruct more as [|a [|b more]]; cbn [length Nat.eqb nth].
  - apply Hk.
  - unfold channelOf. rewrite (Hmore a eq_refl). cbn [negb].
    apply Hk.
  - apply Hk.
Qed.

Lemma setFlag_other_guild {R} (c : context R) (w : World R) usage noun
    gc mg oc mo sub0 flag val idArg id sub more :
  reliable (ctx_s c) ->
  ctx_args c = sub0 :: flag :: idArg :: more ->
  parseFlag flag = Some val ->
  Go.Atoi idArg = Some id ->
  GetSubscription (bot_c c) id (store w) = Ok sub ->
  Sub_GuildID sub <> Msg_GuildID (ctx_m c) ->
  setFlag c usage noun gc mg oc mo w
  = (Done None, deliver (Msg_ChannelID (ctx_m c)) (msgOtherGuild id) w).
Proof.
  intros Hs Hargs Hflag Hid Hsub Hguild. unfold setFlag, arg.
  rewrite Hargs. cbn [length Nat.ltb Nat.leb Nat.eqb nth]. rewrite Hflag.
  rewrite (withOwnSubscription_other_guild c w idArg id sub _ Hid Hsub Hguild).
  apply Reply_reliable. assumption.
Qed.

(** With any further arguments the handler still does nothing but send
    one reply: a third argument without a channel mention, or a token
    that is no flag, is answered before the subscription is looked up. *)
Lemma setChannel_other_guild_any {R} (c : context R) (w : World R)
    idArg id sub more :
  reliable (ctx_s c) ->
  ctx_args c = "channel" :: idArg :: more ->
  Go.Atoi idArg = Some id ->
  GetSubscription (bot_c c) id (store w) = Ok sub ->
  Sub_GuildID sub <> Msg_GuildID (ctx_m c) ->
  exists text,
    setChannel c w = (Done None, deliver (Msg_ChannelID (ctx_m c)) text w).
Proof.
  intros Hs Hargs Hid Hsub Hguild.
  destruct more as [|a [|b more]].
  - exists (msgOtherGuild id).
    apply (setChannel_other_guild c w idArg id sub []); auto.
    intros a Ha. discriminate.
  - destruct (Go.MatchString a) eqn:Hm.
    + exists (msgOtherGuild id).
      apply (setChannel_other_guild c w idArg id sub [a]); auto.
      intros a' Ha. injection Ha as <-. assumption.
    + exists msgUseMention. unfold setChannel, arg. rewrite Hargs.
      cbn [length Nat.ltb Nat.leb Nat.eqb nth]. unfold channelOf. rewrite Hm.
      cbn [negb]. apply Reply_reliable. assumption.
  - exists (msgOtherGuild id).
    apply (setChannel_other_guild c w idArg id sub (a :: b :: more)); auto.
    intros a' Ha. discriminate.
Qed.

Lemma setFlag_other_guild_any {R} (c : context R) (w : World R) usage noun
    gc mg oc mo sub0 flag idArg id sub more :
  reliable (ctx_s c) ->
  ctx_args c = sub0 :: flag :: idArg :: more ->
  Go.Atoi idArg = Some id ->
  GetSubscription (bot_c c) id (store w) = Ok sub ->
  Sub_GuildID sub <> Msg_GuildID (ctx_m c) ->
  exists text,
    setFlag c usage noun gc mg oc mo w
    = (Done None, deliver (Msg_ChannelID (ctx_m c)) text w).
Proof.
  intros Hs Hargs Hid Hsub Hguild.
  destruct (parseFlag flag) as [val|] eqn:Hflag.
  - exists (msgOtherGuild id).
    apply (setFlag_other_guild c w usage noun gc mg oc mo sub0 flag val
             idArg id sub more); assumption.
  - exists msgOnOff. unfold setFlag, arg. rewrite Hargs.
    cbn [length Nat.ltb Nat.leb nth]. rewrite Hflag.
    apply Reply_reliable. assumption.
Qed.

(** C5: a subscription [sub] of one guild, named by its ID in a command
    sent from another guild [Msg_GuildID m]. With a transport that
    delivers and a directory that answers, [remove], [set channel]
    (without a channel, or with an argument the channel pattern is found
    in), [set embed] and [set webhook] (with one of the three flags) all
    end alike: the reply is that the subscription does not exist in this
    guild, the handler returns nil, no controller method that writes is
    called and the store is as before. Whatever the other arguments
    are, the setters return nil after one reply and write nothing. *)
Theorem other_guild_subscription_rejected {R} (bot : Controller R)
    (s : Session) (m : MessageCreate) (w : World R) (ok : bool)
    (idArg : string) (id : Z) (sub : Subscription)
    (Hs : reliable s) (Hg : gate s m ok)
    (Hid : Go.Atoi idArg = Some id)
    (Hsub : GetSubscription bot id (store w) = Ok sub)
    (Hguild : Sub_GuildID sub <> Msg_GuildID m) :
  let rejected : Run (option Err) * World R :=
    (Done None, deliver (Msg_ChannelID m) (msgOtherGuild id) (afterGate m ok w)) in
  remove (mkContext bot s m [idArg]) w = rejected
  /\ (forall more,
        (forall a, more = [a] -> Go.MatchString a = true) ->
        set (mkContext bot s m ("channel" :: idArg :: more)) w = rejected)
  /\ (forall flag val more,
        parseFlag flag = Some val ->
        set (mkContext bot s m ("embed" :: flag :: idArg :: more)) w = rejected)
  /\ (forall flag val more,
        parseFlag flag = Some val ->
        set (mkContext bot s m ("webhook" :: flag :: idArg :: more)) w = rejected)
  /\ store (snd rejected) = store w
  /\ journal (snd rejected) = journal w
  /\ sent (snd rejected)
     = (sent (afterGate m ok w) ++ [(Msg_ChannelID m, msgOtherGuild id)])%list
  /\ (forall sub0 flag more,
        sub0 = "embed" \/ sub0 = "webhook" ->
        exists text,
          set (mkContext bot s m (sub0 :: flag :: idArg :: more)) w
          = (Done None, deliver (Msg_ChannelID m) text (afterGate m ok w)))
  /\ (forall more,
        exists text,
          set (mkContext bot s m ("channel" :: idArg :: more)) w
          = (Done None, deliver (Msg_ChannelID m) text (afterGate m ok w))).
Proof.
  cbv zeta.
  assert (Hsub' : GetSubscription bot id (store (afterGate m ok w)) = Ok sub).
  { replace (store (afterGate m ok w)) with (store w); [assumption|].
    destruct ok; reflexivity. }
  split; [|split; [|split; [|split; [|split; [|split; [|split; [|split]]]]]]].
  - apply (remove_other_guild (mkContext bot s m [idArg]) w ok idArg id sub);
      auto.
  - intros more Hmore.
    rewrite (set_dispatch (mkContext bot s m ("channel" :: idArg :: more)) ok w
               "channel" (idArg :: more) Hs Hg eq_refl).
    cbn [String.eqb Ascii.eqb Bool.eqb].
    apply (setChannel_other_guild (mkContext bot s m ("channel" :: idArg :: more))
             (afterGate m ok w) idArg id sub more); auto.
  - intros flag val more Hflag.
    rewrite (set_dispatch (mkContext bot s m ("embed" :: flag :: idArg :: more)) ok w
               "embed" (flag :: idArg :: more) Hs Hg eq_refl).
    cbn [String.eqb Ascii.eqb Bool.eqb]. unfold setEmbed.
    apply (setFlag_other_guild (mkContext bot s m ("embed" :: flag :: idArg :: more))
             (afterGate m ok w) _ _ _ _ _ _ "embed" flag val idArg id sub more); auto.
  - intros flag val more Hflag.
    rewrite (set_dispatch (mkContext bot s m ("webhook" :: flag :: idArg :: more)) ok w
               "webhook" (flag :: idArg :: more) Hs Hg eq_refl).
    cbn [String.eqb Ascii.eqb Bool.eqb]. unfold setWebhook.
    apply (setFlag_other_guild (mkContext bot s m ("webhook" :: flag :: idArg :: more))
             (afterGate m ok w) _ _ _ _ _ _ "webhook" flag val idArg id sub more); auto.
  - destruct ok; reflexivity.
  - destruct ok; reflexivity.
  - destruct ok; reflexivity.
  - intros sub0 flag more Hsub0.
    rewrite (set_dispatch (mkContext bot s m (sub0 :: flag :: idArg :: more)) ok w
               sub0 (flag :: idArg :: more) Hs Hg eq_refl).
    destruct Hsub0; subst sub0; cbn [String.eqb Ascii.eqb Bool.eqb].
    + unfold setEmbed.
      apply (setFlag_other_guild_any
               (mkContext bot s m ("embed" :: flag :: idArg :: more))
               (afterGate m ok w) _ _ _ _ _ _ "embed" flag idArg id sub more); auto.
    + unfold setWebhook.
      apply (setFlag_other_guild_any
               (mkContext bot s m ("webhook" :: flag :: idArg :: more))
               (afterGate m ok w) _ _ _ _ _ _ "webhook" flag idArg id sub more); auto.
  - intros more.
    rewrite (set_dispatch (mkContext bot s m ("channel" :: idArg :: more)) ok w
               "channel" (idArg :: more) Hs Hg eq_refl).
    cbn [String.eqb Ascii.eqb Bool.eqb].
    apply (setChannel_other_guild_any
             (mkContext bot s m ("channel" :: idArg :: more))
             (afterGate m ok w) idArg id sub more); auto.
Qed.

(** Subscription 7 of guild [g1], named from guild [g2]. *)
Lemma other_guild_subscription_rejected_witness :
  let m := Demo.message "g2" Demo.admin "/feed:remove 7" in
  remove (mkContext Mem.controller Demo.session m ["7"]) Demo.world0
  = (Done None,
     deliver "55" "subscription #7 does not exist in this guild." Demo.world0)
  /\ set (mkContext Mem.controller Demo.session m ["embed"; "off"; "7"]) Demo.world0
     = (Done None,
        deliver "55" "subscription #7 does not exist in this guild." Demo.world0).
Proof.
  cbv zeta.
  destruct (other_guild_subscription_rejected Mem.controller Demo.session
              (Demo.message "g2" Demo.admin "/feed:remove 7") Demo.world0 true
              "7" 7 Demo.sub7)
    as (Hremove & _ & Hembed & _).
  - intros ch m. reflexivity.
  - reflexivity.
  - reflexivity.
  - reflexivity.
  - discriminate.
  - split; [exact Hremove|].
    exact (Hembed "off" (sql.mkNullBool false true) [] eq_refl).
Defined.

(** ** Strings *)

Lemma length_append (s t : string) :
  String.length (s ++ t) = (String.length s + String.length t)%nat.
Proof. induction s as [|c s IH]; cbn; [reflexivity | rewrite IH; reflexivity]. Qed.

Lemma append_nil_r (s : string) : s ++ "" = s.
Proof. induction s as [|c s IH]; cbn; [reflexivity | rewrite IH; reflexivity]. Qed.

Lemma append_assoc (s t u : string) : (s ++ t) ++ u = s ++ t ++ u.
Proof. induction s as [|c s IH]; cbn; [reflexivity | rewrite IH; reflexivity]. Qed.

Lemma length_zero (s : string) : String.length s = 0%nat -> s = "".
Proof. destruct s; [reflexivity | discriminate]. Qed.

Lemma substring_prefix (s t : string) :
  substring 0 (String.length s) (s ++ t) = s.
Proof. induction s as [|c s IH]; cbn; [destruct t; reflexivity | rewrite IH; reflexivity]. Qed.

Lemma substring_length (s : string) :
  forall n m, (n + m <= String.length s)%nat ->
  String.length (substring n m s) = m.
Proof.
  induction s as [|c s IH]; intros n m H; cbn in H.
  - assert (n = 0%nat) by lia. assert (m = 0%nat) by lia. subst. reflexivity.
  - destruct n as [|n]; cbn.
    + destruct m as [|m]; cbn; [reflexivity|].
      rewrite IH by lia. reflexivity.
    + apply IH. lia.
Qed.

(** ** The channel pattern *)

Lemma isDigit_not_close (c : ascii) :
  Go.isDigit c = true -> Ascii.eqb c ">"%char = false.
Proof.
  intros H. destruct (Ascii.eqb_spec c ">"%char) as [->|]; [|reflexivity].
  vm_compute in H. discriminate.
Qed.

Lemma digitsThenClose_elim (s : string) :
  Go.digitsThenClose s = true ->
  exists ds post, s = ds ++ String ">"%char post /\ Go.allDigits ds = true.
Proof.
  induction s as [|c s IH]; cbn; [discriminate|].
  destruct (Ascii.eqb_spec c ">"%char) as [->|Hc].
  - intros _. exists "", s. split; reflexivity.
  - destruct (Go.isDigit c) eqn:Hd; [|discriminate].
    intros H. destruct (IH H) as (ds & post & -> & Hds).
    exists (String c ds), post. split; [reflexivity|].
    cbn. rewrite Hd, Hds. reflexivity.
Qed.

Lemma digitsThenClose_intro (ds post : string) :
  Go.allDigits ds = true ->
  Go.digitsThenClose (ds ++ String ">"%char post) = true.
Proof.
  induction ds as [|c ds IH]; cbn; [reflexivity|].
  intros H. apply andb_prop in H. destruct H as [Hc Hds].
  rewrite (isDigit_not_close c Hc), Hc. apply IH. assumption.
Qed.

Lemma matchHere_elim (s : string) :
  Go.matchHere s = true ->
  exists ds post,
    s = "<#" ++ ds ++ ">" ++ post /\ ds <> "" /\ Go.allDigits ds = true.
Proof.
  destruct s as [|a [|b [|d rest]]]; cbn; try discriminate.
  intros H.
  apply andb_prop in H. destruct H as [H Hrest].
  apply andb_prop in H. destruct H as [H Hd].
  apply andb_prop in H. destruct H as [Ha Hb].
  apply Ascii.eqb_eq in Ha, Hb. subst a b.
  destruct (digitsThenClose_elim rest Hrest) as (ds & post & -> & Hds).
  exists (String d ds), post. split; [reflexivity|]. split; [discriminate|].
  cbn. rewrite Hd, Hds. reflexivity.
Qed.

Lemma matchHere_intro (ds post : string) :
  ds <> "" -> Go.allDigits ds = true ->
  Go.matchHere ("<#" ++ ds ++ ">" ++ post) = true.
Proof.
  intros Hne Hds. destruct ds as [|d ds]; [congruence|].
  cbn in Hds. apply andb_prop in Hds. destruct Hds as [Hd Hds].
  cbn. rewrite Hd. cbn. apply digitsThenClose_intro. assumption.
Qed.

(** The pattern is found in [s] exactly when [s] holds a channel mention
    somewhere. *)
Lemma MatchString_iff (s : string) :
  Go.MatchString s = true <->
  exists pre ds post,
    s = pre ++ "<#" ++ ds ++ ">" ++ post /\ ds <> "" /\ Go.allDigits ds = true.
Proof.
  split.
  - induction s as [|c s IH].
    + cbn. discriminate.
    + intros H. cbn [Go.MatchString] in H. apply orb_prop in H.
      destruct H as [H|H].
      * destruct (matchHere_elim _ H) as (ds & post & Hs & Hne & Hds).
        exists "", ds, post. split; [exact Hs|]. split; assumption.
      * destruct (IH H) as (pre & ds & post & -> & Hne & Hds).
        exists (String c pre), ds, post. split; [reflexivity|]. split; assumption.
  - intros (pre & ds & post & -> & Hne & Hds).
    induction pre as [|c pre IH].
    + change ("" ++ "<#" ++ ds ++ ">" ++ post) with ("<#" ++ ds ++ ">" ++ post).
      assert (Hm := matchHere_intro ds post Hne Hds).
      cbn [append] in *. cbn [Go.MatchString]. rewrite Hm. reflexivity.
    + change (String c pre ++ "<#" ++ ds ++ ">" ++ post)
        with (String c (pre ++ "<#" ++ ds ++ ">" ++ post)).
      cbn [Go.MatchString]. rewrite IH. apply orb_true_r.
Qed.

(** What is kept of a token that holds a mention: the token without its
    first two and its last character. It is the mentioned channel only
    when the token is the mention. *)
Lemma slice_mention (pre ds post : string) :
  ds <> "" ->
  let a := pre ++ "<#" ++ ds ++ ">" ++ post in
  String.length (Go.slice a 2 (String.length a - 1))
  = (String.length pre + String.length ds + String.length post)%nat
  /\ (Go.slice a 2 (String.length a - 1) = ds <-> pre = "" /\ post = "").
Proof.
  intros Hne a.
  assert (Hlen : String.length a
                 = (String.length pre + String.length ds + String.length post + 3)%nat).
  { unfold a. rewrite !length_append. cbn [String.length]. lia. }
  assert (Hstored : String.length (Go.slice a 2 (String.length a - 1))
                    = (String.length pre + String.length ds + String.length post)%nat).
  { unfold Go.slice. rewrite substring_length; lia. }
  split; [exact Hstored|]. split.
  - intros H. rewrite H in Hstored.
    split; apply length_zero; lia.
  - intros [Hpre Hpost]. unfold Go.slice. rewrite Hlen.
    unfold a. subst pre post. cbn [append String.length Nat.add].
    replace (String.length ds + 0 + 3 - 1 - 2)%nat with (String.length ds) by lia.
    cbn [substring]. apply substring_prefix.
Qed.

(** A token that is a channel mention and nothing else. *)
Lemma channel_pattern_exact (ds : string) :
  ds <> "" -> Go.allDigits ds = true ->
  Go.MatchString ("<#" ++ ds ++ ">") = true
  /\ Go.slice ("<#" ++ ds ++ ">") 2 (String.length ("<#" ++ ds ++ ">") - 1) = ds.
Proof.
  intros Hne Hds. split.
  - apply MatchString_iff. exists "", ds, "". repeat split; assumption.
  - assert (H := proj2 (slice_mention "" ds "" Hne)). cbv zeta in H.
    apply H. split; reflexivity.
Qed.

(** ** What the handlers store for a channel or contact argument *)

Lemma setContact_run {R} (c : context R) (w : World R) sub0 a :
  ctx_args c = [sub0; a] ->
  match contactOf a (Msg_Mentions (ctx_m c)) with
  | Some id =>
      journal (snd (setContact c w))
      = (journal w ++ [WModifyGuildContact (Msg_GuildID (ctx_m c)) id])%list
      /\ store (snd (setContact c w))
         = snd (ModifyGuildContact (bot_c c) (Msg_GuildID (ctx_m c)) id (store w))
  | None =>
      setContact c w = Reply c msgBadContact w
      /\ journal (snd (setContact c w)) = journal w
      /\ store (snd (setContact c w)) = store w
  end.
Proof.
  intros Hargs. unfold setContact, arg. rewrite Hargs.
  cbn [length Nat.eqb negb nth].
  destruct (contactOf a (Msg_Mentions (ctx_m c))) as [id|].
  - unfold bind, update.
    destruct (ModifyGuildContact (bot_c c) (Msg_GuildID (ctx_m c)) id (store w))
      as [[e|] st]; cbn.
    + split; reflexivity.
    + unfold Reply. destruct (ChannelMessageSend _ _ _); split; reflexivity.
  - split; [reflexivity|]. split; apply Reply_keeps_repository.
Qed.





(** ** The emergency contact *)

(** C7: [set contact a]. What [contactOf] yields is handed to
    [ModifyGuildContact], and a refused token gets the corrective reply
    with no call of the controller. The order of the readings: a token
    the channel pattern is found in is a channel, [c:] and the token
    without its first two and its last character, so [c:ds] for the
    mention [<#ds>], whatever the message mentions; otherwise the first
    user mentioned by the message; otherwise the token itself when
    [Atoi] reads it; otherwise nothing. *)
Theorem contact_precedence {R} (c : context R) (w : World R) (sub0 a : string)
    (Hargs : ctx_args c = [sub0; a]) :
  let mentions := Msg_Mentions (ctx_m c) in
  let guild := Msg_GuildID (ctx_m c) in
  (forall id, contactOf a mentions = Some id ->
     journal (snd (setContact c w))
     = (journal w ++ [WModifyGuildContact guild id])%list
     /\ store (snd (setContact c w))
        = snd (ModifyGuildContact (bot_c c) guild id (store w)))
  /\ (contactOf a mentions = None ->
      setContact c w = Reply c msgBadContact w
      /\ journal (snd (setContact c w)) = journal w
      /\ store (snd (setContact c w)) = store w)
  /\ (Go.MatchString a = true ->
      contactOf a mentions = Some ("c:" ++ Go.slice a 2 (String.length a - 1)))
  /\ (forall ds, ds <> "" -> Go.allDigits ds = true -> a = "<#" ++ ds ++ ">" ->
      contactOf a mentions = Some ("c:" ++ ds))
  /\ (Go.MatchString a = false -> forall u rest, mentions = u :: rest ->
      contactOf a mentions = Some ("u:" ++ User_ID u))
  /\ (Go.MatchString a = false -> mentions = [] ->
      forall n, Go.Atoi a = Some n -> contactOf a mentions = Some ("u:" ++ a))
  /\ (Go.MatchString a = false -> mentions = [] -> Go.Atoi a = None ->
      contactOf a mentions = None).
Proof.
  intros mentions guild.
  assert (Hrun := setContact_run c w sub0 a Hargs).
  fold mentions guild in Hrun.
  split; [|split; [|split; [|split; [|split; [|split]]]]].
  - intros id Hid. rewrite Hid in Hrun. exact Hrun.
  - intros Hnone. rewrite Hnone in Hrun. exact Hrun.
  - intros Hm. unfold contactOf. rewrite Hm. reflexivity.
  - intros ds Hne Hds Ha.
    destruct (channel_pattern_exact ds Hne Hds) as [Hm Hkept].
    subst a. unfold contactOf. rewrite Hm, Hkept. reflexivity.
  - intros Hm u rest Hu. unfold contactOf. rewrite Hm, Hu. reflexivity.
  - intros Hm Hnil n Hn. unfold contactOf. rewrite Hm, Hnil, Hn. reflexivity.
  - intros Hm Hnil Hn. unfold contactOf. rewrite Hm, Hnil, Hn. reflexivity.
Qed.

(** A message that mentions a user and names the channel [<#12>]: the
    channel is stored. *)
Lemma contact_precedence_witness :
  journal (snd (setContact
                  (mkContext Mem.controller Demo.session
                     (Demo.mentioning "/feed:set contact <#12>")
                     ["contact"; "<#12>"]) Demo.world0))
  = [WModifyGuildContact "g1" "c:12"]
  /\ Mem.configs (store (snd (setContact
                  (mkContext Mem.controller Demo.session
                     (Demo.mentioning "/feed:set contact <#12>")
                     ["contact"; "<#12>"]) Demo.world0)))
     = [("g1", mkGuildConfig "c:12" true false)].
Proof.
  destruct (contact_precedence
              (mkContext Mem.controller Demo.session
                 (Demo.mentioning "/feed:set contact <#12>")
                 ["contact"; "<#12>"]) Demo.world0 "contact" "<#12>" eq_refl)
    as (Hstore & _).
  destruct (Hstore "c:12" eq_refl) as [Hj Hs].
  split; [exact Hj|]. rewrite Hs. reflexivity.
Defined.

(** ** The pages of [list] *)

Lemma listLoop_reliable {R} (c : context R) (subs : list Subscription) :
  reliable (ctx_s c) ->
  forall b (w : World R),
    listLoop c subs b w
    = (Done None,
       deliverAll (Msg_ChannelID (ctx_m c)) (pages (map listRow subs) b) w).
Proof.
  intros Hs. induction subs as [|s rest IH]; intros b w; cbn [listLoop map pages].
  - rewrite Reply_reliable by assumption. reflexivity.
  - destruct (1900 <? String.length (b ++ listRow s))%nat.
    + unfold bind. rewrite Reply_reliable by assumption.
      rewrite IH. reflexivity.
    + apply IH.
Qed.

Lemma deliverAll_world {R} ch (ps : list string) :
  forall w : World R,
    sent (deliverAll ch ps w) = (sent w ++ map (pair ch) ps)%list
    /\ store (deliverAll ch ps w) = store w
    /\ journal (deliverAll ch ps w) = journal w.
Proof.
  induction ps as [|p ps IH]; intros w; cbn [deliverAll fold_left map].
  - rewrite app_nil_r. repeat split; reflexivity.
  - destruct (IH (deliver ch p w)) as (Hsent & Hstore & Hjournal).
    unfold deliverAll in *. rewrite Hsent, Hstore, Hjournal.
    cbn [deliver sent store journal]. rewrite <- app_assoc.
    repeat split; reflexivity.
Qed.

Lemma joined_pages (rows : list string) :
  forall b, joined (pages rows b) = b ++ joined rows.
Proof.
  induction rows as [|r rest IH]; intros b; cbn [pages joined fold_right].
  - reflexivity.
  - destruct (1900 <? String.length (b ++ r))%nat.
    + cbn [joined fold_right]. fold (joined (pages rest "")).
      rewrite IH. cbn [append]. fold (joined rest). apply append_assoc.
    + fold (joined (pages rest (b ++ r))). rewrite IH.
      fold (joined rest). apply append_assoc.
Qed.

Lemma pages_not_nil (rows : list string) : forall b, pages rows b <> [].
Proof.
  induction rows as [|r rest IH]; intros b; cbn [pages].
  - discriminate.
  - destruct (1900 <? String.length (b ++ r))%nat; [discriminate | apply IH].
Qed.

(** Every reply but the last was sent because it was longer than 1900. *)
Lemma pages_flushed (rows : list string) :
  forall b, Forall (fun p => (1900 < String.length p)%nat)
              (removelast (pages rows b)).
Proof.
  induction rows as [|r rest IH]; intros b; cbn [pages].
  - constructor.
  - destruct (1900 <? String.length (b ++ r))%nat eqn:Hlen.
    + assert (Hne := pages_not_nil rest "").
      cbn [removelast]. destruct (pages rest "") as [|p ps] eqn:Hp; [congruence|].
      constructor.
      * apply Nat.ltb_lt. assumption.
      * rewrite <- Hp. apply IH.
    + apply IH.
Qed.

(** The last reply is a builder the loop did not have to send. *)
Lemma pages_last (rows : list string) :
  forall b, ((String.length b <= 1900)%nat \/ rows <> []) ->
            (String.length (last (pages rows b) "") <= 1900)%nat.
Proof.
  induction rows as [|r rest IH]; intros b Hb; cbn [pages].
  - cbn [last]. destruct Hb as [Hb|Hb]; [assumption | congruence].
  - destruct (1900 <? String.length (b ++ r))%nat eqn:Hlen.
    + assert (Hne := pages_not_nil rest "").
      cbn [last]. destruct (pages rest "") as [|p ps] eqn:Hp; [congruence|].
      rewrite <- Hp. apply IH. left. cbn. lia.
    + apply IH. left. apply Nat.ltb_ge. assumption.
Qed.

Lemma map_snd_pair (ch : string) (l : list string) :
  map snd (map (pair ch) l) = l.
Proof. induction l as [|p l IH]; cbn; [reflexivity | rewrite IH; reflexivity]. Qed.

(** C8: [list] with a transport that delivers, a directory that answers
    and a repository that returns the configuration [gc] and the
    subscriptions [subs]. The replies are the pages of the rows of
    [subs] after the header of [gc]: rows are appended to the builder,
    the builder is sent as a reply of its own each time it is longer
    than 1900 after a row, and what is left is sent at the end. Joined
    in order, the replies are the header followed by the row of every
    subscription once, in order; nothing is written to the repository. *)
Theorem list_pages {R} (c : context R) (w : World R) (ok : bool)
    (gc : GuildConfig) (subs : list Subscription)
    (Hs : reliable (ctx_s c)) (Hg : gate (ctx_s c) (ctx_m c) ok)
    (Hgc : GetGuildConfig (bot_c c) (Msg_GuildID (ctx_m c)) (store w) = Ok gc)
    (Hsubs : GetSubscriptions (bot_c c) (Msg_GuildID (ctx_m c)) (store w) = Ok subs) :
  let replies := pages (map listRow subs) (listHeader gc) in
  fst (list_ c w) = Done None
  /\ sent (snd (list_ c w))
     = (sent (afterGate (ctx_m c) ok w)
        ++ map (pair (Msg_ChannelID (ctx_m c))) replies)%list
  /\ store (snd (list_ c w)) = store w
  /\ journal (snd (list_ c w)) = journal w
  /\ joined replies = listHeader gc ++ joined (map listRow subs)
  /\ Forall (fun p => (1900 < String.length p)%nat) (removelast replies)
  /\ (subs <> [] -> (String.length (last replies "") <= 1900)%nat)
  /\ (forall b, pages [] b = [b])
  /\ (forall r rest b,
        pages (r :: rest) b
        = if (1900 <? String.length (b ++ r))%nat
          then (b ++ r) :: pages rest "" else pages rest (b ++ r)).
Proof.
  intros replies.
  assert (Hrun : list_ c w
                 = (Done None,
                    deliverAll (Msg_ChannelID (ctx_m c)) replies
                      (afterGate (ctx_m c) ok w))).
  { unfold list_, bind. rewrite (checkPrivilege_reliable c ok w Hs Hg).
    assert (Hst : store (afterGate (ctx_m c) ok w) = store w)
      by (destruct ok; reflexivity).
    unfold query. rewrite Hst, Hgc. cbn beta iota. rewrite Hst, Hsubs.
    apply listLoop_reliable. assumption. }
  rewrite Hrun. cbn [fst snd].
  destruct (deliverAll_world (Msg_ChannelID (ctx_m c)) replies
              (afterGate (ctx_m c) ok w)) as (Hsent & Hstore & Hjournal).
  split; [reflexivity|]. split; [exact Hsent|].
  split; [rewrite Hstore; destruct ok; reflexivity|].
  split; [rewrite Hjournal; destruct ok; reflexivity|].
  split; [apply joined_pages|].
  split; [apply pages_flushed|].
  split.
  - intros Hne. apply pages_last. right.
    destruct subs; [congruence | discriminate].
  - split; reflexivity.
Qed.

(** The sixty subscriptions of guild [g3] take three replies. *)
Lemma list_pages_witness :
  let c := Demo.ctxOf "g3" Demo.admin "/feed:list" [] in
  fst (list_ c Demo.worldBig) = Done None
  /\ length (sent (snd (list_ c Demo.worldBig))) = 3%nat
  /\ joined (map snd (sent (snd (list_ c Demo.worldBig))))
     = listHeader Demo.config3 ++ joined (map listRow Demo.manySubs).
Proof.
  cbv zeta.
  destruct (list_pages (Demo.ctxOf "g3" Demo.admin "/feed:list" [])
              Demo.worldBig true Demo.config3 Demo.manySubs)
    as (Hret & Hsent & _ & _ & Hjoined & _).
  - intros ch m. reflexivity.
  - reflexivity.
  - reflexivity.
  - vm_compute. reflexivity.
  - split; [exact Hret|]. rewrite Hsent. split.
    + vm_compute. reflexivity.
    + change (sent (afterGate (ctx_m (Demo.ctxOf "g3" Demo.admin "/feed:list" []))
                      true Demo.worldBig))
        with (@nil (string * string)).
      rewrite app_nil_l, map_snd_pair. exact Hjoined.
Defined.

(** * Further properties of the commands *)

(** ** Frames *)

#[export] Instance sameRepository_frame {R} ch : Frame ch (@sameRepository R).
Proof.
  split.
  - intros w. split; reflexivity.
  - intros a b c [H1 H2] [H3 H4]. split; congruence.
  - intros m w. split; reflexivity.
Qed.

#[export] Instance sameSession_frame {R} ch : Frame ch (@sameSession R).
Proof.
  split.
  - intros w. repeat split; reflexivity.
  - intros a b c (H1 & H2 & H3) (H4 & H5 & H6). repeat split; congruence.
  - intros m w. repeat split; reflexivity.
Qed.

#[export] Instance sameSession_update {R} : FrameUpdate (@sameSession R).
Proof. split. intros w st call. repeat split; reflexivity. Qed.

#[export] Instance repliesTo_frame {R} ch : Frame ch (@repliesTo R ch).
Proof.
  split.
  - intros w. exists []. split; [rewrite app_nil_r; reflexivity | constructor].
  - intros a b c (l1 & H1 & F1) (l2 & H2 & F2). exists (l1 ++ l2)%list.
    split; [rewrite H2, H1, app_assoc; reflexivity|].
    apply Forall_app. split; assumption.
  - intros m w. exists [(ch, m)]. split; [reflexivity|].
    constructor; [reflexivity | constructor].
Qed.

#[export] Instance repliesTo_update {R} ch : FrameUpdate (@repliesTo R ch).
Proof.
  split. intros w st call. exists [].
  split; [cbn; rewrite app_nil_r; reflexivity | constructor].
Qed.

Section FrameRules.

Context {R : Type} (P : World R -> World R -> Prop).

Lemma preserves_ret {A} ch `{!Frame ch P} (a : A) : preserves P (ret a).
Proof. intros w. apply (frame_refl (ch := ch)). Qed.

Lemma preserves_panic {A} ch `{!Frame ch P} v : preserves P (@panic R A v).
Proof. intros w. apply (frame_refl (ch := ch)). Qed.

Lemma preserves_query {A} ch `{!Frame ch P} (f : R -> A) : preserves P (query f).
Proof. intros w. apply (frame_refl (ch := ch)). Qed.

Lemma preserves_bind {A B} ch `{!Frame ch P} (c : M R A) (k : A -> M R B) :
  preserves P c -> (forall a, preserves P (k a)) -> preserves P (bind c k).
Proof.
  intros Hc Hk w. unfold bind. specialize (Hc w).
  destruct (c w) as [[a|v] w1]; cbn in *.
  - apply (frame_trans (ch := ch)) with w1; [assumption | apply Hk].
  - assumption.
Qed.

Lemma preserves_Reply (c : context R) `{!Frame (Msg_ChannelID (ctx_m c)) P} m :
  preserves P (Reply c m).
Proof.
  intros w. unfold Reply. destruct (ChannelMessageSend _ _ _); cbn.
  - apply (frame_refl (ch := Msg_ChannelID (ctx_m c))).
  - apply frame_deliver.
Qed.

Lemma preserves_update {A} `{!FrameUpdate P} call (f : R -> A * R) :
  preserves P (update call f).
Proof.
  intros w. unfold update. destruct (f (store w)) as [a st]. apply frame_update.
Qed.

Lemma preserves_checkPrivilege (c : context R)
    `{!Frame (Msg_ChannelID (ctx_m c)) P} :
  preserves P (checkPrivilege c).
Proof.
  unfold checkPrivilege.
  destruct (memberHasPermission _ _ _ _) as [ok [e|]].
  - apply (preserves_ret (Msg_ChannelID (ctx_m c))).
  - destruct ok; cbn [negb].
    + apply (preserves_ret (Msg_ChannelID (ctx_m c))).
    + apply (preserves_bind (Msg_ChannelID (ctx_m c))).
      * apply preserves_Reply; assumption.
      * intros [e|]; apply (preserves_ret (Msg_ChannelID (ctx_m c))).
Qed.

Lemma preserves_listLoop (c : context R)
    `{!Frame (Msg_ChannelID (ctx_m c)) P} subs :
  forall b, preserves P (listLoop c subs b).
Proof.
  induction subs as [|s rest IH]; intros b; cbn [listLoop].
  - apply preserves_Reply; assumption.
  - destruct (1900 <? String.length (b ++ listRow s))%nat.
    + apply (preserves_bind (Msg_ChannelID (ctx_m c))).
      * apply preserves_Reply; assumption.
      * intros [e|]; [apply (preserves_ret (Msg_ChannelID (ctx_m c))) | apply IH].
    + apply IH.
Qed.

End FrameRules.

(** One step of a frame proof on the shape of the command. *)
Ltac frame_step c :=
  let ch := constr:(Msg_ChannelID (ctx_m c)) in
  match goal with
  | |- preserves _ (bind _ _) => apply (preserves_bind _ ch); [|intro]
  | |- preserves _ (ret _) => apply (preserves_ret _ ch)
  | |- preserves _ (panic _) => apply (preserves_panic _ ch)
  | |- preserves _ (query _) => apply (preserves_query _ ch)
  | |- preserves _ (Reply _ _) => apply preserves_Reply; typeclasses eauto
  | |- preserves _ (update _ _) => apply preserves_update; typeclasses eauto
  | |- preserves _ (checkPrivilege _) =>
      apply preserves_checkPrivilege; typeclasses eauto
  | |- preserves _ (listLoop _ _ _) =>
      apply preserves_listLoop; typeclasses eauto
  | |- preserves _ (match ?x with _ => _ end) => destruct x
  end.

Ltac frame c := cbv zeta; repeat frame_step c.

Lemma preserves_help {R} (P : World R -> World R -> Prop) (c : context R)
    `{!Frame (Msg_ChannelID (ctx_m c)) P} : preserves P (help c).
Proof. unfold help. frame c. Qed.

Lemma preserves_list {R} (P : World R -> World R -> Prop) (c : context R)
    `{!Frame (Msg_ChannelID (ctx_m c)) P} : preserves P (list_ c).
Proof. unfold list_. frame c. Qed.

Section HandlerFrames.

Context {R : Type} (P : World R -> World R -> Prop) (c : context R).
Context `{!Frame (Msg_ChannelID (ctx_m c)) P} `{!FrameUpdate P}.

Lemma preserves_add : preserves P (add c).
Proof. unfold add. frame c. Qed.

Lemma preserves_remove : preserves P (remove c).
Proof. unfold remove. frame c. Qed.

Lemma preserves_withOwnSubscription idArg k :
  (forall id sub, preserves P (k id sub)) ->
  preserves P (withOwnSubscription c idArg k).
Proof. intros Hk. unfold withOwnSubscription. frame c. apply Hk. Qed.

Lemma preserves_setChannel : preserves P (setChannel c).
Proof.
  unfold setChannel. frame c.
  apply preserves_withOwnSubscription. intros id sub. frame c.
Qed.

Lemma preserves_setContact : preserves P (setContact c).
Proof. unfold setContact. frame c. Qed.

Lemma preserves_setFlag usage noun gc mg oc mo :
  preserves P (setFlag c usage noun gc mg oc mo).
Proof.
  unfold setFlag. frame c.
  all: try (apply preserves_withOwnSubscription; intros id sub; frame c).
Qed.

Lemma preserves_set : preserves P (set c).
Proof.
  unfold set. frame c.
  - apply preserves_setChannel.
  - apply preserves_setContact.
  - apply preserves_setFlag.
  - apply preserves_setFlag.
Qed.

Lemma preserves_dbgMigrate : preserves P (dbgMigrate c).
Proof.
  intros w. unfold dbgMigrate.
  destruct (negb _); [apply (frame_refl (ch := Msg_ChannelID (ctx_m c)))|].
  destruct (State_Guild _ _) as [[guild|]|e].
  - revert w. change (preserves P
      (bind (update (WCreateGuildConfig (Guild_ID guild) ("u:" ++ Guild_OwnerID guild))
               (CreateGuildConfig (bot_c c) (Guild_ID guild)
                  ("u:" ++ Guild_OwnerID guild)))
         (fun err => match err with
                     | Some e => ret (Some e)
                     | None => Reply c "gotem"
                     end))).
    frame c.
  - revert w. change (preserves P
      (bind (Reply c "couldn't find the guild not gonna try")
         (fun _ => @panic R (option Err) NilDereference))).
    frame c.
  - apply (frame_refl (ch := Msg_ChannelID (ctx_m c))).
Qed.

Lemma preserves_mux verb f : mux verb = Some f -> preserves P (f c).
Proof.
  unfold mux. intros H.
  repeat match type of H with
         | (if ?b then _ else _) = _ => destruct b
         end;
    try discriminate; injection H as <-.
  - apply preserves_help; assumption.
  - apply preserves_add.
  - apply preserves_remove.
  - apply preserves_list; assumption.
  - apply preserves_set.
  - apply preserves_dbgMigrate.
Qed.

End HandlerFrames.

(** ** The router *)

(** X1: whatever the message and the handler do, one dispatch leaves
    [mentionPrefix] and [owner] as they are, writes at most one line to
    the log, and delivers messages to no channel but the one the
    message came from. *)
Theorem onMessageCreate_frame {R} (bot : Controller R) (s : Session)
    (m : MessageCreate) (w : World R) :
  let w' := onMessageCreate bot s m w in
  mentionPrefix w' = mentionPrefix w
  /\ owner w' = owner w
  /\ (logged w' = logged w \/ exists line, logged w' = (logged w ++ [line])%list)
  /\ repliesTo (Msg_ChannelID m) w w'.
Proof.
  cbv zeta.
  assert (Hsame : mentionPrefix w = mentionPrefix w /\ owner w = owner w
                  /\ (logged w = logged w
                      \/ exists line, logged w = (logged w ++ [line])%list)
                  /\ repliesTo (Msg_ChannelID m) w w).
  { repeat split; try (left; reflexivity).
    apply (frame_refl (ch := Msg_ChannelID m)). }
  unfold onMessageCreate.
  destruct (User_Bot (Msg_Author m)); [exact Hsame|].
  destruct (invocation w m) as [content|]; [|exact Hsame].
  destruct (length (Go.Split content) <? 1)%nat; [exact Hsame|].
  destruct (mux (nth 0 (Go.Split content) "")) as [f|] eqn:Hmux; [|exact Hsame].
  set (args := if (1 <? length (Go.Split content))%nat
               then tl (Go.Split content) else []).
  set (c := mkContext bot s m args).
  assert (Hs := preserves_mux sameSession c _ f Hmux w).
  assert (Hr := preserves_mux (repliesTo (Msg_ChannelID (ctx_m c))) c _ f Hmux w).
  destruct (f c w) as [[[e|]|v] w1]; cbn [snd] in Hs, Hr;
    destruct Hs as (Hp & Ho & Hl); cbn [println mentionPrefix owner logged sent].
  - repeat split; try assumption.
    right. eexists. rewrite Hl. reflexivity.
  - repeat split; try assumption. left. assumption.
  - repeat split; try assumption.
    right. eexists. rewrite Hl. reflexivity.
Qed.

Lemma mux_known (R : Type) (verb : string) :
  ~ In verb ["help"; "add"; "remove"; "list"; "set"; "dbg~migrate"] ->
  @mux R verb = None.
Proof.
  intros H. unfold mux.
  repeat match goal with
         | |- (if String.eqb ?a ?b then _ else _) = _ =>
             destruct (String.eqb_spec a b) as [->|_];
             [exfalso; apply H; cbn; tauto|]
         end.
  reflexivity.
Qed.

(** X2: a message is dropped without a reply, a log line or any other
    change when its author is a bot, when it starts with neither the
    mention of the bot nor the literal prefix, or when the text up to
    the first space after the prefix is none of the six verbs, compared
    exactly. *)
Theorem onMessageCreate_ignores {R} (bot : Controller R) (s : Session)
    (m : MessageCreate) (w : World R)
    (H : User_Bot (Msg_Author m) = true
         \/ invocation w m = None
         \/ exists content,
              invocation w m = Some content
              /\ ~ In (nth 0 (Go.Split content) "")
                      ["help"; "add"; "remove"; "list"; "set"; "dbg~migrate"]) :
  onMessageCreate bot s m w = w.
Proof.
  unfold onMessageCreate.
  destruct H as [H | [H | (content & H & Hverb)]].
  - rewrite H. reflexivity.
  - destruct (User_Bot _); [reflexivity|]. rewrite H. reflexivity.
  - destruct (User_Bot _); [reflexivity|]. rewrite H.
    destruct (length (Go.Split content) <? 1)%nat; [reflexivity|].
    rewrite (mux_known R _ Hverb). reflexivity.
Qed.

Lemma onMessageCreate_ignores_witness :
  onMessageCreate Mem.controller Demo.session
    (Demo.message "g1" Demo.admin "/feed:Help") Demo.world0
  = Demo.world0.
Proof.
  apply onMessageCreate_ignores.
  right. right. exists "Help". split; [reflexivity|].
  cbn. intros [H|[H|[H|[H|[H|[H|[]]]]]]]; discriminate.
Defined.

(** X3: a space, or nothing, after the prefix makes the verb empty, so
    the message is dropped: [<@id> help] with the space is not a
    command, [<@id>help] is. *)
Theorem onMessageCreate_space_after_prefix {R} (bot : Controller R)
    (s : Session) (m : MessageCreate) (w : World R) (rest : string)
    (H : invocation w m = Some "" \/ invocation w m = Some (String " " rest)) :
  onMessageCreate bot s m w = w.
Proof.
  unfold onMessageCreate. destruct (User_Bot _); [reflexivity|].
  destruct H as [H|H]; rewrite H.
  - reflexivity.
  - cbn [Go.Split]. change (Ascii.eqb " " Go.space) with true. cbn iota.
    cbn [length Nat.ltb Nat.leb nth]. reflexivity.
Qed.

Lemma onMessageCreate_space_after_prefix_witness :
  onMessageCreate Mem.controller Demo.session
    (Demo.message "g1" Demo.admin "<@0> help") Demo.world0
  = Demo.world0.
Proof.
  apply (onMessageCreate_space_after_prefix _ _ _ _ "help").
  right. reflexivity.
Defined.

(** X4: [help] asks for no permission and no repository: for every
    author that is not a bot and every directory, the only thing that
    happens is the delivery of the help text, or, when the transport
    refuses it, one log line under the verb. *)
Theorem help_needs_no_permission {R} (bot : Controller R) (s : Session)
    (m : MessageCreate) (w : World R)
    (Hbot : User_Bot (Msg_Author m) = false)
    (Hinv : invocation w m = Some "help") :
  onMessageCreate bot s m w
  = match ChannelMessageSend s (Msg_ChannelID m) helpText with
    | None => deliver (Msg_ChannelID m) helpText w
    | Some err => println (LogErr "help" err) w
    end.
Proof.
  unfold onMessageCreate. rewrite Hbot, Hinv.
  cbn [Go.Split Ascii.eqb Bool.eqb Go.space length Nat.ltb Nat.leb nth tl].
  change (@mux R "help") with (Some (@help R)). cbn iota.
  unfold help, Reply. cbn [ctx_s ctx_m].
  destruct (ChannelMessageSend s (Msg_ChannelID m) helpText); reflexivity.
Qed.

Lemma help_needs_no_permission_witness :
  sent (onMessageCreate Mem.controller Demo.session
          (Demo.message "g1" (mkUser "999" false) "/feed:help") Demo.world0)
  = [("55", helpText)].
Proof.
  rewrite (help_needs_no_permission Mem.controller Demo.session
             (Demo.message "g1" (mkUser "999" false) "/feed:help") Demo.world0
             eq_refl eq_refl).
  reflexivity.
Defined.

(** ** The permission checker, continued *)

Lemma anyRoleGrants_all_cached s guildID permission :
  forall roles,
    (forall r, In r roles -> exists role, State_Role s guildID r = Ok role) ->
    anyRoleGrants s guildID roles permission
    = (existsb (cachedRoleGrants s guildID permission) roles, None).
Proof.
  induction roles as [|r roles IH]; intros Hall; cbn [anyRoleGrants existsb].
  - reflexivity.
  - unfold cachedRoleGrants at 1.
    destruct (Hall r (or_introl eq_refl)) as [role Hr]. rewrite Hr.
    destruct (negb (Z.land (Role_Permissions role) permission =? 0)).
    + reflexivity.
    + apply IH. intros r' Hin. apply Hall. right. assumption.
Qed.

(** X5: when the member resolves and every role of the member is in the
    state cache, [memberHasPermission] returns no error, and [true]
    exactly when one of the roles has a bit in common with the
    permission asked for. *)
Theorem memberHasPermission_all_cached (s : Session)
    (guildID userID : string) (permission : Z) (member : Member)
    (Hmember : resolveMember s guildID userID = Ok member)
    (Hroles : forall r, In r (Member_Roles member) ->
                exists role, State_Role s guildID r = Ok role) :
  memberHasPermission s guildID userID permission
  = (existsb (cachedRoleGrants s guildID permission) (Member_Roles member), None)
  /\ (fst (memberHasPermission s guildID userID permission) = true <->
      exists r role,
        In r (Member_Roles member) /\ State_Role s guildID r = Ok role
        /\ Z.land (Role_Permissions role) permission <> 0).
Proof.
  assert (Hrun : memberHasPermission s guildID userID permission
                 = (existsb (cachedRoleGrants s guildID permission)
                      (Member_Roles member), None)).
  { rewrite memberHasPermission_resolveMember, Hmember.
    apply anyRoleGrants_all_cached. assumption. }
  split; [exact Hrun|]. rewrite Hrun. cbn [fst]. rewrite existsb_exists. split.
  - intros (r & Hin & Hg). unfold cachedRoleGrants in Hg.
    destruct (State_Role s guildID r) as [role|] eqn:Hr; [|discriminate].
    exists r, role. repeat split; try assumption.
    apply negb_true_iff, Z.eqb_neq in Hg. assumption.
  - intros (r & role & Hin & Hr & Hland). exists r. split; [assumption|].
    unfold cachedRoleGrants. rewrite Hr.
    apply negb_true_iff, Z.eqb_neq. assumption.
Qed.

Lemma memberHasPermission_all_cached_witness :
  memberHasPermission Demo.session "g1" "100" PermissionAdministrator
  = (true, None).
Proof.
  apply (memberHasPermission_all_cached Demo.session "g1" "100"
           PermissionAdministrator (mkMember ["everyone"; "admins"]) eq_refl).
  intros r [<-|[<-|[]]]; eexists; reflexivity.
Defined.

(** X6: the loop over the roles stops at the first role that carries
    the permission: roles behind it are not looked up, so a role the
    cache misses there does no harm, while the same role in front of it
    is a hard error (C3). *)
Theorem memberHasPermission_stops_at_first_grant (s : Session)
    (guildID userID : string) (permission : Z) (member : Member)
    (pre post : list string) (roleID : string) (role : Role)
    (Hmember : resolveMember s guildID userID = Ok member)
    (Hroles : Member_Roles member = (pre ++ roleID :: post)%list)
    (Hpre : forall r, In r pre ->
       exists role', State_Role s guildID r = Ok role'
                     /\ Z.land (Role_Permissions role') permission = 0)
    (Hrole : State_Role s guildID roleID = Ok role)
    (Hgrant : Z.land (Role_Permissions role) permission <> 0) :
  memberHasPermission s guildID userID permission = (true, None).
Proof.
  rewrite memberHasPermission_resolveMember, Hmember, Hroles.
  clear Hmember Hroles. induction pre as [|r pre IH]; cbn.
  - rewrite Hrole. apply Z.eqb_neq in Hgrant. rewrite Hgrant. reflexivity.
  - destruct (Hpre r (or_introl eq_refl)) as (role' & Hr & Hland).
    rewrite Hr, Hland. cbn. apply IH.
    intros r' Hin. apply Hpre. right. assumption.
Qed.

(** An administrator role in front of a role the cache misses. *)
Lemma memberHasPermission_stops_at_first_grant_witness :
  memberHasPermission
    (mkSession (fun _ _ => Ok (mkMember ["everyone"; "admins"; "mods"]))
       (GuildMember Demo.session) (State_Role Demo.session)
       (GuildRole Demo.session) (State_Guild Demo.session)
       (Session_Application Demo.session) (ChannelMessageSend Demo.session))
    "g1" "400" PermissionAdministrator
  = (true, None).
Proof.
  apply (memberHasPermission_stops_at_first_grant _ "g1" "400"
           PermissionAdministrator (mkMember ["everyone"; "admins"; "mods"])
           ["everyone"] ["mods"] "admins" (mkRole 8)).
  - reflexivity.
  - reflexivity.
  - intros r [<-|[]]. exists (mkRole 1024). split; reflexivity.
  - reflexivity.
  - discriminate.
Defined.

(** X7: the permission check fails closed. When the directory returns an
    error, or when the rejection cannot be delivered to a member
    without the permission, [checkPrivilege] returns that error and
    every privileged handler returns it ([add] with a stack) without a
    reply and without a call of the controller. *)
Theorem handlers_stop_on_gate_error {R} (c : context R) (w : World R)
    (ok : bool) (err : Err)
    (H : memberHasPermission (ctx_s c) (Msg_GuildID (ctx_m c))
           (User_ID (Msg_Author (ctx_m c))) PermissionAdministrator
         = (ok, Some err)
         \/ (memberHasPermission (ctx_s c) (Msg_GuildID (ctx_m c))
               (User_ID (Msg_Author (ctx_m c))) PermissionAdministrator
             = (false, None)
             /\ ChannelMessageSend (ctx_s c) (Msg_ChannelID (ctx_m c)) adminOnly
                = Some err)) :
  checkPrivilege c w = (Done (false, Some err), w)
  /\ add c w = (Done (Some (WithStack err)), w)
  /\ remove c w = (Done (Some err), w)
  /\ list_ c w = (Done (Some err), w)
  /\ set c w = (Done (Some err), w).
Proof.
  assert (Hgate : checkPrivilege c w = (Done (false, Some err), w)).
  { unfold checkPrivilege. destruct H as [H|[H Hsend]]; rewrite H.
    - reflexivity.
    - cbn [negb]. unfold bind, Reply. rewrite Hsend. reflexivity. }
  split; [exact Hgate|].
  unfold add, remove, list_, set, bind. rewrite Hgate.
  repeat split; reflexivity.
Qed.

(** Member 300 holds a role the cache misses: [list] is not served. *)
Lemma handlers_stop_on_gate_error_witness :
  list_ (Demo.ctxOf "g1" (mkUser "300" false) "/feed:list" []) Demo.world0
  = (Done (Some (ErrOther "state cache miss")), Demo.world0).
Proof.
  apply (handlers_stop_on_gate_error
           (Demo.ctxOf "g1" (mkUser "300" false) "/feed:list" [])
           Demo.world0 false (ErrOther "state cache miss")
           (or_introl eq_refl)).
Defined.

(** ** [remove] and [add] *)

Lemma update_written {R A} (call : RepoWrite) (f : R -> A * R) (w : World R) :
  update call f w = (Done (fst (f (store w))), written call (snd (f (store w))) w).
Proof. unfold update, written. destruct (f (store w)); reflexivity. Qed.

(** X8: what [remove] does once the permission check has passed
    ([afterGate]) and the transport delivers. A wrong number of
    arguments, an ID [Atoi] does not read and an ID the repository does
    not know each get their own reply and nil, with no write; another
    failure of the lookup is returned with no reply; for a subscription
    of the guild, [DestroySubscription] is called once with the ID and
    the deletion is reported. *)
Theorem remove_outcomes {R} (c : context R) (w : World R) (ok : bool)
    (Hs : reliable (ctx_s c)) (Hg : gate (ctx_s c) (ctx_m c) ok) :
  let ch := Msg_ChannelID (ctx_m c) in
  let w0 := afterGate (ctx_m c) ok w in
  (length (ctx_args c) <> 1%nat ->
   remove c w
   = (Done None,
      deliver ch "**usage:** `remove <id>`; please omit spaces from arguments?!" w0))
  /\ (forall a, ctx_args c = [a] -> Go.Atoi a = None ->
      remove c w = (Done None, deliver ch msgIdNumber w0))
  /\ (forall a id, ctx_args c = [a] -> Go.Atoi a = Some id ->
      GetSubscription (bot_c c) id (store w) = Fail ErrNoRows ->
      remove c w = (Done None, deliver ch msgNotFound w0))
  /\ (forall a id err, ctx_args c = [a] -> Go.Atoi a = Some id ->
      GetSubscription (bot_c c) id (store w) = Fail err -> err <> ErrNoRows ->
      remove c w = (Done (Some err), w0))
  /\ (forall a id sub, ctx_args c = [a] -> Go.Atoi a = Some id ->
      GetSubscription (bot_c c) id (store w) = Ok sub ->
      Sub_GuildID sub = Msg_GuildID (ctx_m c) ->
      remove c w
      = (Done None,
         deliver ch (msgDeleted id)
           (written (WDestroySubscription id)
              (snd (DestroySubscription (bot_c c) id (store w))) w0))).
Proof.
  cbv zeta.
  assert (Hst : store (afterGate (ctx_m c) ok w) = store w)
    by (destruct ok; reflexivity).
  assert (Hrun : remove c w
                 = (if negb (length (ctx_args c) =? 1)%nat then
                      Reply c "**usage:** `remove <id>`; please omit spaces from arguments?!"
                    else
                      match Go.Atoi (arg c 0) with
                      | None => Reply c msgIdNumber
                      | Some id =>
                          match GetSubscription (bot_c c) id (store w) with
                          | Fail ErrNoRows => Reply c msgNotFound
                          | Fail err => ret (Some err)
                          | Ok sub =>
                              if negb (String.eqb (Sub_GuildID sub)
                                         (Msg_GuildID (ctx_m c)))
                              then Reply c (msgOtherGuild id)
                              else
                                bind (update (WDestroySubscription id)
                                        (DestroySubscription (bot_c c) id))
                                  (fun _ => Reply c (msgDeleted id))
                          end
                      end) (afterGate (ctx_m c) ok w)).
  { unfold remove at 1. unfold bind at 1.
    rewrite (checkPrivilege_reliable c ok w Hs Hg).
    destruct (negb (length (ctx_args c) =? 1)%nat); [reflexivity|].
    destruct (Go.Atoi (arg c 0)); [|reflexivity].
    unfold bind at 1. unfold query. rewrite Hst. reflexivity. }
  rewrite Hrun. clear Hrun.
  split; [|split; [|split; [|split]]].
  - intros Hlen. apply Nat.eqb_neq in Hlen. rewrite Hlen. cbn [negb].
    apply Reply_reliable. assumption.
  - intros a Hargs Ha. unfold arg. rewrite Hargs. cbn [length Nat.eqb negb nth].
    rewrite Ha. apply Reply_reliable. assumption.
  - intros a id Hargs Ha Hsub. unfold arg. rewrite Hargs.
    cbn [length Nat.eqb negb nth]. rewrite Ha, Hsub.
    apply Reply_reliable. assumption.
  - intros a id err Hargs Ha Hsub Herr. unfold arg. rewrite Hargs.
    cbn [length Nat.eqb negb nth]. rewrite Ha, Hsub.
    destruct err; try reflexivity. congruence.
  - intros a id sub Hargs Ha Hsub Hguild. unfold arg. rewrite Hargs.
    cbn [length Nat.eqb negb nth]. rewrite Ha, Hsub.
    apply String.eqb_eq in Hguild. rewrite Hguild. cbn [negb].
    unfold bind. rewrite update_written. rewrite Hst.
    apply Reply_reliable. assumption.
Qed.

Lemma remove_outcomes_witness :
  remove (Demo.ctxOf "g1" Demo.admin "/feed:remove 8" ["8"]) Demo.world0
  = (Done None, deliver "55" msgNotFound Demo.world0)
  /\ remove (Demo.ctxOf "g1" Demo.admin "/feed:remove 7" ["7"]) Demo.world0
     = (Done None,
        deliver "55" "subscription #7 has been deleted."
          (written (WDestroySubscription 7)
             (Mem.withSubs Demo.store0 []) Demo.world0)).
Proof.
  split.
  - destruct (remove_outcomes (Demo.ctxOf "g1" Demo.admin "/feed:remove 8" ["8"])
                Demo.world0 true (fun _ _ => eq_refl) eq_refl)
      as (_ & _ & H & _).
    exact (H "8" 8 eq_refl eq_refl eq_refl).
  - destruct (remove_outcomes (Demo.ctxOf "g1" Demo.admin "/feed:remove 7" ["7"])
                Demo.world0 true (fun _ _ => eq_refl) eq_refl)
      as (_ & _ & _ & _ & H).
    exact (H "7" 7 Demo.sub7 eq_refl eq_refl eq_refl eq_refl).
Defined.

(** X9: what [add] does once the permission check has passed and the
    transport delivers. No argument or more than two, or a second
    argument without a channel mention, get a reply and nothing is
    written, not even the feed. With the URI alone the subscription is
    asked for in the channel of the message; a failure of
    [GetOrCreateFeed] is returned before [AddSubscription] is called; a
    subscription that exists already is reported with its ID and is no
    error; any other failure is returned without a reply. *)
Theorem add_outcomes {R} (c : context R) (w : World R) (ok : bool)
    (Hs : reliable (ctx_s c)) (Hg : gate (ctx_s c) (ctx_m c) ok) :
  let ch := Msg_ChannelID (ctx_m c) in
  let guild := Msg_GuildID (ctx_m c) in
  let w0 := afterGate (ctx_m c) ok w in
  ((length (ctx_args c) = 0 \/ 2 < length (ctx_args c))%nat ->
   add c w
   = (Done None,
      deliver ch "**usage:** `add <uri> [channel]`; please omit spaces from arguments!" w0))
  /\ (forall uri a, ctx_args c = [uri; a] -> Go.MatchString a = false ->
      add c w = (Done None, deliver ch msgUseMention w0))
  /\ (forall uri err st, ctx_args c = [uri] ->
      GetOrCreateFeed (bot_c c) uri (store w) = (Fail err, st) ->
      add c w = (Done (Some err), written (WGetOrCreateFeed uri) st w0))
  /\ (forall uri feed st1 sub e st2, ctx_args c = [uri] ->
      GetOrCreateFeed (bot_c c) uri (store w) = (Ok feed, st1) ->
      AddSubscription (bot_c c) ch guild (Feed_ID feed) st1 = ((sub, e), st2) ->
      let w2 := written (WAddSubscription ch guild (Feed_ID feed)) st2
                  (written (WGetOrCreateFeed uri) st1 w0) in
      add c w
      = match e with
        | Some ErrSubExists =>
            (Done None,
             deliver ch ("this subscription (#" ++ Go.itoa (Sub_ID sub)
                         ++ ") already exists!") w2)
        | Some err => (Done (Some err), w2)
        | None =>
            (Done None,
             deliver ch ("subscription #" ++ Go.itoa (Sub_ID sub) ++ " created!") w2)
        end).
Proof.
  cbv zeta.
  assert (Hst : store (afterGate (ctx_m c) ok w) = store w)
    by (destruct ok; reflexivity).
  assert (Hgate := checkPrivilege_reliable c ok w Hs Hg).
  split; [|split; [|split]].
  - intros Hlen. unfold add, bind at 1. rewrite Hgate.
    replace ((length (ctx_args c) <? 1)%nat || (2 <? length (ctx_args c))%nat)%bool
      with true.
    + apply Reply_reliable. assumption.
    + symmetry. apply orb_true_iff.
      destruct Hlen as [Hlen|Hlen]; [left | right]; apply Nat.ltb_lt; lia.
  - intros uri a Hargs Hm. unfold add, bind at 1. rewrite Hgate.
    unfold arg. rewrite Hargs.
    cbn [length Nat.ltb Nat.leb Nat.eqb orb nth]. unfold channelOf. rewrite Hm.
    cbn [negb]. apply Reply_reliable. assumption.
  - intros uri err st Hargs Hfeed. unfold add, bind at 1. rewrite Hgate.
    unfold arg. rewrite Hargs.
    cbn [length Nat.ltb Nat.leb Nat.eqb orb nth].
    unfold bind. rewrite update_written, Hst, Hfeed. reflexivity.
  - intros uri feed st1 sub e st2 Hargs Hfeed Hadd.
    unfold add, bind at 1. rewrite Hgate.
    unfold arg. rewrite Hargs.
    cbn [length Nat.ltb Nat.leb Nat.eqb orb nth].
    unfold bind. rewrite update_written, Hst, Hfeed. cbn [fst snd].
    rewrite update_written. cbn [store written]. rewrite Hadd. cbn [fst snd].
    destruct e as [[| | |]|]; try reflexivity;
      apply Reply_reliable; assumption.
Qed.

(** Subscription 7 asked for again in its channel: it is reported, and
    the store keeps its single subscription. *)
Lemma add_outcomes_witness :
  let r := add (Demo.ctxOf "g1" Demo.admin "/feed:add https://example.com/feed.xml"
                  ["https://example.com/feed.xml"]) Demo.world0 in
  fst r = Done None
  /\ sent (snd r) = [("55", "this subscription (#7) already exists!")]
  /\ Mem.subs (store (snd r)) = [Demo.sub7].
Proof.
  cbv zeta.
  destruct (add_outcomes
              (Demo.ctxOf "g1" Demo.admin "/feed:add https://example.com/feed.xml"
                 ["https://example.com/feed.xml"])
              Demo.world0 true (fun _ _ => eq_refl) eq_refl)
    as (_ & _ & _ & H).
  rewrite (H "https://example.com/feed.xml"
             (mkFeed 1 "https://example.com/feed.xml") Demo.store0
             Demo.sub7 (Some ErrSubExists) Demo.store0 eq_refl eq_refl eq_refl).
  repeat split.
Defined.

(** ** [list], continued *)

(** X10: [help], [list] and the permission check never write: whatever
    the transport, the directory and the repository answer, no
    controller method that writes is called and the store is as
    before. *)
Theorem reading_commands_never_write {R} (c : context R) (w : World R) :
  sameRepository w (snd (help c w))
  /\ sameRepository w (snd (list_ c w))
  /\ sameRepository w (snd (checkPrivilege c w)).
Proof.
  split; [|split].
  - apply preserves_help. typeclasses eauto.
  - apply preserves_list. typeclasses eauto.
  - apply preserves_checkPrivilege. typeclasses eauto.
Qed.

Lemma pages_groups (rows : list string) :
  forall b, exists g gs,
    rows = concat (g :: gs)
    /\ pages rows b = (b ++ joined g) :: map joined gs
    /\ (length (pages rows b) <= length rows + 1)%nat.
Proof.
  induction rows as [|r rest IH]; intros b; cbn [pages].
  - exists [], []. cbn. rewrite append_nil_r. repeat split. lia.
  - destruct (1900 <? String.length (b ++ r))%nat.
    + destruct (IH "") as (g & gs & Hrows & Hpages & Hlen).
      exists [r], (g :: gs). split; [cbn in *; rewrite Hrows; reflexivity|].
      split.
      * rewrite Hpages. cbn [joined fold_right map append].
        rewrite append_nil_r. reflexivity.
      * cbn [length]. lia.
    + destruct (IH (b ++ r)) as (g & gs & Hrows & Hpages & Hlen).
      exists (r :: g), gs. split; [cbn in *; rewrite Hrows; reflexivity|].
      split.
      * rewrite Hpages. cbn [joined fold_right]. fold (joined g).
        rewrite append_assoc. reflexivity.
      * cbn [length]. lia.
Qed.

(** X11: no row of the listing is cut in two. With a transport that
    delivers, the loop of [list] splits the rows into consecutive
    groups; the first reply is the builder it started with followed by
    the rows of the first group, every later reply is the rows of one
    group, and there are at most as many replies as rows, plus one. *)
Theorem list_rows_stay_whole {R} (c : context R) (w : World R)
    (subs : list Subscription) (b : string)
    (Hs : reliable (ctx_s c)) :
  exists g gs,
    map listRow subs = concat (g :: gs)
    /\ fst (listLoop c subs b w) = Done None
    /\ sent (snd (listLoop c subs b w))
       = (sent w
          ++ map (pair (Msg_ChannelID (ctx_m c)))
               ((b ++ joined g)%string :: map joined gs))%list
    /\ (length gs <= length subs)%nat.
Proof.
  destruct (pages_groups (map listRow subs) b) as (g & gs & Hrows & Hpages & Hlen).
  exists g, gs. rewrite (listLoop_reliable c subs Hs b w). cbn [fst snd].
  split; [exact Hrows|]. split; [reflexivity|]. split.
  - rewrite <- Hpages. apply deliverAll_world.
  - rewrite Hpages in Hlen. cbn [length] in Hlen.
    rewrite !length_map in Hlen. lia.
Qed.

Lemma list_rows_stay_whole_witness :
  exists g gs,
    map listRow Demo.manySubs = concat (g :: gs)
    /\ map snd (sent (snd (listLoop (Demo.ctxOf "g3" Demo.admin "/feed:list" [])
                             Demo.manySubs (listHeader Demo.config3)
                             Demo.worldBig)))
       = (listHeader Demo.config3 ++ joined g) :: map joined gs.
Proof.
  destruct (list_rows_stay_whole (Demo.ctxOf "g3" Demo.admin "/feed:list" [])
              Demo.worldBig Demo.manySubs (listHeader Demo.config3)
              (fun _ _ => eq_refl))
    as (g & gs & Hrows & _ & Hsent & _).
  exists g, gs. split; [exact Hrows|].
  rewrite Hsent. cbn [sent Demo.worldBig app].
  apply map_snd_pair.
Defined.



(** ** [set] and its subcommands *)

(** X13: the usage replies of [set]. Without an argument, with a
    subcommand that is none of the four (compared exactly), with
    [channel] or a flag setter without a further argument, or with
    [contact] and not exactly one further argument, the only effect is
    one reply; nil is returned and nothing is written. *)
Theorem set_usage_replies {R} (c : context R) (w : World R) (ok : bool)
    (Hs : reliable (ctx_s c)) (Hg : gate (ctx_s c) (ctx_m c) ok) :
  let w0 := afterGate (ctx_m c) ok w in
  let replied text := set c w = (Done None, deliver (Msg_ChannelID (ctx_m c)) text w0) in
  (ctx_args c = [] ->
   replied "**usage:** set <channel|contact|embed|webhook> ..., see help command.")
  /\ (forall sub rest, ctx_args c = sub :: rest ->
      ~ In sub ["channel"; "contact"; "embed"; "webhook"] ->
      replied "subcommand must be one of channel|contact|embed|webhook, see help command.")
  /\ (ctx_args c = ["channel"] ->
      replied "**usage:** `set channel <id> [channel]`; please omit spaces from arguments?!")
  /\ (forall rest, ctx_args c = "contact" :: rest -> length rest <> 1%nat ->
      replied "**usage:** `set contact <user|channel>`; please use a user mention, user id, or channel mention, and omit spaces.")
  /\ (ctx_args c = ["embed"] -> replied "**usage:** `set embed <on|off|inherit> [id]`")
  /\ (ctx_args c = ["webhook"] -> replied "**usage:** `set webhook <on|off> [id]`").
Proof.
  cbv zeta. split; [|split; [|split; [|split; [|split]]]].
  - intros Hargs. unfold set, bind.
    rewrite (checkPrivilege_reliable c ok w Hs Hg). rewrite Hargs.
    cbn [length Nat.eqb]. apply Reply_reliable. assumption.
  - intros sub rest Hargs Hsub.
    rewrite (set_dispatch c ok w sub rest Hs Hg Hargs).
    repeat match goal with
           | |- (if String.eqb ?a ?b then _ else _) _ = _ =>
               destruct (String.eqb_spec a b) as [->|_];
               [exfalso; apply Hsub; cbn; tauto|]
           end.
    apply Reply_reliable. assumption.
  - intros Hargs. rewrite (set_dispatch c ok w "channel" [] Hs Hg Hargs).
    cbn [String.eqb Ascii.eqb Bool.eqb]. unfold setChannel. rewrite Hargs.
    cbn [length Nat.ltb Nat.leb]. apply Reply_reliable. assumption.
  - intros rest Hargs Hlen.
    rewrite (set_dispatch c ok w "contact" rest Hs Hg Hargs).
    cbn [String.eqb Ascii.eqb Bool.eqb]. unfold setContact. rewrite Hargs.
    cbn [length]. replace (S (length rest) =? 2)%nat with false.
    + apply Reply_reliable. assumption.
    + symmetry. apply Nat.eqb_neq. lia.
  - intros Hargs. rewrite (set_dispatch c ok w "embed" [] Hs Hg Hargs).
    cbn [String.eqb Ascii.eqb Bool.eqb]. unfold setEmbed, setFlag. rewrite Hargs.
    cbn [length Nat.ltb Nat.leb]. apply Reply_reliable. assumption.
  - intros Hargs. rewrite (set_dispatch c ok w "webhook" [] Hs Hg Hargs).
    cbn [String.eqb Ascii.eqb Bool.eqb]. unfold setWebhook, setFlag. rewrite Hargs.
    cbn [length Nat.ltb Nat.leb]. apply Reply_reliable. assumption.
Qed.

Lemma set_usage_replies_witness :
  set (Demo.ctxOf "g1" Demo.admin "/feed:set Embed on" ["Embed"; "on"]) Demo.world0
  = (Done None,
     deliver "55"
       "subcommand must be one of channel|contact|embed|webhook, see help command."
       Demo.world0).
Proof.
  destruct (set_usage_replies
              (Demo.ctxOf "g1" Demo.admin "/feed:set Embed on" ["Embed"; "on"])
              Demo.world0 true (fun _ _ => eq_refl) eq_refl)
    as (_ & H & _).
  apply (H "Embed" ["on"] eq_refl).
  cbn. intros [H1|[H1|[H1|[H1|[]]]]]; discriminate.
Defined.

(** X14: [set channel <id>] on a subscription of the guild. Unless there
    are exactly three arguments the channel written is the one the
    message came from, so a channel argument followed by anything else
    is not read. [ModifySubscriptionChannel] is called once; its error
    is returned without a reply, its success is reported. *)
Theorem setChannel_own_subscription {R} (c : context R) (w : World R)
    (ok : bool) (idArg : string) (more : list string) (id : Z)
    (sub : Subscription)
    (Hs : reliable (ctx_s c)) (Hg : gate (ctx_s c) (ctx_m c) ok)
    (Hargs : ctx_args c = "channel" :: idArg :: more)
    (Hmore : length more <> 1%nat)
    (Hid : Go.Atoi idArg = Some id)
    (Hsub : GetSubscription (bot_c c) id (store w) = Ok sub)
    (Hguild : Sub_GuildID sub = Msg_GuildID (ctx_m c)) :
  let ch := Msg_ChannelID (ctx_m c) in
  let r := ModifySubscriptionChannel (bot_c c) id ch (store w) in
  let w1 := written (WModifySubscriptionChannel id ch) (snd r)
              (afterGate (ctx_m c) ok w) in
  set c w
  = match fst r with
    | Some err => (Done (Some err), w1)
    | None =>
        (Done None,
         deliver ch ("subscription #" ++ Go.itoa id ++ " will now write to <#"
                     ++ ch ++ ">") w1)
    end.
Proof.
  cbv zeta.
  assert (Hst : store (afterGate (ctx_m c) ok w) = store w)
    by (destruct ok; reflexivity).
  rewrite (set_dispatch c ok w "channel" (idArg :: more) Hs Hg Hargs).
  cbn [String.eqb Ascii.eqb Bool.eqb]. unfold setChannel, arg. rewrite Hargs.
  cbn [length Nat.ltb Nat.leb nth].
  replace (S (S (length more)) =? 3)%nat with false
    by (symmetry; apply Nat.eqb_neq; lia).
  unfold withOwnSubscription. rewrite Hid. unfold bind at 1. unfold query.
  rewrite Hst, Hsub. apply String.eqb_eq in Hguild. rewrite Hguild. cbn [negb].
  unfold bind. rewrite update_written, Hst.
  destruct (fst (ModifySubscriptionChannel (bot_c c) id
                   (Msg_ChannelID (ctx_m c)) (store w))).
  - reflexivity.
  - apply Reply_reliable. assumption.
Qed.

(** [set channel 7 <#12> please]: the fourth argument makes the handler
    skip the third, and subscription 7 is set to the channel of the
    message. *)
Lemma setChannel_own_subscription_witness :
  journal (snd (set (Demo.ctxOf "g1" Demo.admin "/feed:set channel 7 <#12> please"
                       ["channel"; "7"; "<#12>"; "please"]) Demo.world0))
  = [WModifySubscriptionChannel 7 "55"].
Proof.
  rewrite (setChannel_own_subscription
             (Demo.ctxOf "g1" Demo.admin "/feed:set channel 7 <#12> please"
                ["channel"; "7"; "<#12>"; "please"])
             Demo.world0 true "7" ["<#12>"; "please"] 7 Demo.sub7
             (fun _ _ => eq_refl) eq_refl eq_refl).
  - reflexivity.
  - discriminate.
  - reflexivity.
  - reflexivity.
  - reflexivity.
Defined.




(** ** [dbg~migrate] and [onReady] *)

(** X16: [dbg~migrate] asks the permission checker nothing; it compares
    the author with [owner]. For any other author it does nothing at
    all and returns nil. For the owner it looks the guild up in the
    state cache only: an error of the cache is returned; a guild found
    is given a configuration whose contact is the guild's owner as a
    user, under the ID of the cached guild; a nil guild without an
    error is replied to and then dereferenced, which panics. *)
Theorem dbgMigrate_owner_only {R} (c : context R) (w : World R) :
  let author := User_ID (Msg_Author (ctx_m c)) in
  let found := State_Guild (ctx_s c) (Msg_GuildID (ctx_m c)) in
  (author <> owner w -> dbgMigrate c w = (Done None, w))
  /\ (forall err, author = owner w -> found = Fail err ->
      dbgMigrate c w = (Done (Some err), w))
  /\ (forall guild, author = owner w -> found = Ok (Some guild) ->
      let contact := "u:" ++ Guild_OwnerID guild in
      let r := CreateGuildConfig (bot_c c) (Guild_ID guild) contact (store w) in
      let w1 := written (WCreateGuildConfig (Guild_ID guild) contact) (snd r) w in
      dbgMigrate c w
      = match fst r with
        | Some err => (Done (Some err), w1)
        | None => Reply c "gotem" w1
        end)
  /\ (author = owner w -> found = Ok None ->
      fst (dbgMigrate c w) = Panicked NilDereference
      /\ sameRepository w (snd (dbgMigrate c w))).
Proof.
  cbv zeta. unfold dbgMigrate. split; [|split; [|split]].
  - intros Hne. apply String.eqb_neq in Hne. rewrite Hne. reflexivity.
  - intros err Heq Hfound. apply String.eqb_eq in Heq. rewrite Heq, Hfound.
    reflexivity.
  - intros guild Heq Hfound. apply String.eqb_eq in Heq. rewrite Heq, Hfound.
    cbn [negb]. unfold bind.
    rewrite (update_written
               (WCreateGuildConfig (Guild_ID guild) ("u:" ++ Guild_OwnerID guild))
               (CreateGuildConfig (bot_c c) (Guild_ID guild)
                  ("u:" ++ Guild_OwnerID guild)) w).
    destruct (fst (CreateGuildConfig (bot_c c) (Guild_ID guild)
                     ("u:" ++ Guild_OwnerID guild) (store w))); reflexivity.
  - intros Heq Hfound. apply String.eqb_eq in Heq. rewrite Heq, Hfound.
    cbn [negb]. unfold bind, Reply, panic.
    destruct (ChannelMessageSend _ _ _); split; try reflexivity; split; reflexivity.
Qed.

(** The demo administrator is an administrator, not the owner. *)
Lemma dbgMigrate_owner_only_witness :
  dbgMigrate (Demo.ctxOf "g1" Demo.admin "/feed:dbg~migrate" []) Demo.world0
  = (Done None, Demo.world0).
Proof.
  apply (dbgMigrate_owner_only
           (Demo.ctxOf "g1" Demo.admin "/feed:dbg~migrate" []) Demo.world0).
  discriminate.
Defined.

Lemma prefix_append (p t : string) : String.prefix p (p ++ t) = true.
Proof.
  induction p as [|a p IH]; cbn.
  - destruct t; reflexivity.
  - destruct (ascii_dec a a) as [_|Hne]; [exact IH | congruence].
Qed.

Lemma sliceFrom_append (p t : string) :
  Go.sliceFrom (p ++ t) (String.length p) = t.
Proof.
  unfold Go.sliceFrom. rewrite length_append.
  replace (String.length p + String.length t - String.length p)%nat
    with (String.length t) by lia.
  induction p as [|a p IH]; cbn.
  - rewrite <- (append_nil_r t) at 2. apply substring_prefix.
  - exact IH.
Qed.

(** X17: a READY event whose application lookup succeeds sets
    [mentionPrefix] to the mention of the bot user and [owner] to the
    owner of the application, and touches nothing else. From then on a
    message that starts with that mention, or with the literal prefix
    [/feed:], is taken for a command whose text is what follows the
    prefix. *)
Theorem onReady_sets_the_prefix {R} (s : Session) (u : User) (w : World R)
    (apps : Application)
    (Happ : Session_Application s "@me" = Ok apps) :
  let w1 := snd (onReady s u w) in
  onReady s u w
  = (Done tt,
     mkWorld (sent w) (store w) (journal w) (logged w)
       ("<@" ++ User_ID u ++ ">") (User_ID (App_Owner apps)))
  /\ (forall m text, Msg_Content m = "<@" ++ User_ID u ++ ">" ++ text ->
      invocation w1 m = Some text)
  /\ (forall m text, Msg_Content m = "/feed:" ++ text ->
      invocation w1 m = Some text).
Proof.
  cbv zeta.
  assert (Hrun : onReady s u w
                 = (Done tt,
                    mkWorld (sent w) (store w) (journal w) (logged w)
                      ("<@" ++ User_ID u ++ ">") (User_ID (App_Owner apps)))).
  { unfold onReady. rewrite Happ. reflexivity. }
  rewrite Hrun. cbn [snd]. split; [reflexivity|]. split.
  - intros m text Hm. unfold invocation, Go.HasPrefix. cbn [mentionPrefix].
    rewrite Hm.
    change ("<@" ++ User_ID u ++ ">" ++ text)
      with (String "<" (String "@" (User_ID u ++ ">" ++ text))).
    rewrite <- (append_assoc (User_ID u) ">" text).
    change (String "<" (String "@" ((User_ID u ++ ">") ++ text)))
      with (("<@" ++ User_ID u ++ ">") ++ text).
    rewrite prefix_append, sliceFrom_append. reflexivity.
  - intros m text Hm. unfold invocation, Go.HasPrefix. cbn [mentionPrefix].
    rewrite Hm.
    change (String.prefix ("<@" ++ User_ID u ++ ">") ("/feed:" ++ text))
      with false. cbn iota.
    change prefix with "/feed:".
    rewrite prefix_append, sliceFrom_append. reflexivity.
Qed.

Lemma onReady_sets_the_prefix_witness :
  invocation (snd (onReady Demo.sessionOnline (mkUser "42" true) Demo.world0))
    (Demo.message "g1" Demo.admin "<@42>list")
  = Some "list".
Proof.
  refine (proj1 (proj2 (onReady_sets_the_prefix Demo.sessionOnline
                          (mkUser "42" true) Demo.world0
                          (mkApplication (mkUser "100" false)) eq_refl))
            (Demo.message "g1" Demo.admin "<@42>list") "list" eq_refl).
Defined.

(** ** The skeleton router *)

(** X18: the router of the skeleton runs no command. A message it
    recognizes by a prefix makes it cut the prefix length off the empty
    [content], which panics before the recovery is deferred; any other
    message is dropped. So for a bot user with a mention (never empty)
    every message with the literal prefix or the mention, from an
    author that is not a bot, ends in an unrecovered panic, and no
    message is ever answered or logged. *)
Theorem skeleton_router_runs_nothing {R} (bot : Controller R) (s : Session)
    (m : MessageCreate) (w : World R)
    (Hmention : mentionPrefix w <> "") :
  (Skeleton.onMessageCreate bot s m w = inr w
   \/ exists lo, Skeleton.onMessageCreate bot s m w
                 = inl (Skeleton.SliceBoundsOutOfRange lo 0))
  /\ (User_Bot (Msg_Author m) = false ->
      Go.HasPrefix (Msg_Content m) (mentionPrefix w) = true
      \/ Go.HasPrefix (Msg_Content m) prefix = true ->
      exists lo, Skeleton.onMessageCreate bot s m w
                 = inl (Skeleton.SliceBoundsOutOfRange lo 0)).
Proof.
  assert (Hlen : (String.length "" <? String.length (mentionPrefix w))%nat = true).
  { apply Nat.ltb_lt. destruct (mentionPrefix w); [congruence | cbn; lia]. }
  unfold Skeleton.onMessageCreate, Skeleton.sliceFrom. split.
  - destruct (User_Bot (Msg_Author m)); [left; reflexivity|]. cbv zeta.
    destruct (Go.HasPrefix (Msg_Content m) (mentionPrefix w)).
    + rewrite Hlen. right. eexists. reflexivity.
    + destruct (Go.HasPrefix (Msg_Content m) prefix).
      * right. eexists. reflexivity.
      * left. reflexivity.
  - intros Hbot Hprefix. rewrite Hbot. cbv zeta.
    destruct (Go.HasPrefix (Msg_Content m) (mentionPrefix w)).
    + rewrite Hlen. eexists. reflexivity.
    + destruct Hprefix as [Hp|Hp]; [discriminate|]. rewrite Hp.
      eexists. reflexivity.
Qed.

Lemma skeleton_router_runs_nothing_witness :
  Skeleton.onMessageCreate Mem.controller Demo.session
    (Demo.message "g1" Demo.admin "/feed:help") Demo.world0
  = inl (Skeleton.SliceBoundsOutOfRange 6 0).
Proof.
  destruct (skeleton_router_runs_nothing Mem.controller Demo.session
              (Demo.message "g1" Demo.admin "/feed:help") Demo.world0)
    as [_ H].
  - discriminate.
  - destruct (H eq_refl (or_intror eq_refl)) as [lo Hlo].
    rewrite Hlo. vm_compute in Hlo. injection Hlo as <-. reflexivity.
Defined.

(** ** IDs as they are printed and read *)

Lemma digits_of_uint (d : Decimal.uint) :
  Go.allDigits (NilEmpty.string_of_uint d) = true
  /\ forall acc, Go.digitsVal acc (NilEmpty.string_of_uint d) = uintVal acc d.
Proof.
  induction d as [|d [IH1 IH2]|d [IH1 IH2]|d [IH1 IH2]|d [IH1 IH2]|d [IH1 IH2]
                  |d [IH1 IH2]|d [IH1 IH2]|d [IH1 IH2]|d [IH1 IH2]|d [IH1 IH2]];
    cbn [NilEmpty.string_of_uint Go.allDigits Go.digitsVal uintVal];
    (split; [try reflexivity; rewrite IH1; reflexivity
            | intros acc; try reflexivity; rewrite IH2; reflexivity]).
Qed.

Lemma uintVal_of_uint_acc (d : Decimal.uint) :
  forall acc, Z.pos (Pos.of_uint_acc d acc) = uintVal (Z.pos acc) d.
Proof.
  induction d; intros acc; cbn [Pos.of_uint_acc uintVal];
    try reflexivity; rewrite IHd; f_equal; lia.
Qed.

Lemma uintVal_of_uint (d : Decimal.uint) :
  Z.of_N (Pos.of_uint d) = uintVal 0 d.
Proof.
  induction d; cbn [Pos.of_uint uintVal Z.of_N];
    try reflexivity; try assumption;
    rewrite uintVal_of_uint_acc; reflexivity.
Qed.

Lemma string_of_uint_head (d : Decimal.uint) :
  d <> Decimal.Nil ->
  exists a rest,
    NilEmpty.string_of_uint d = String a rest
    /\ Ascii.eqb a "-"%char = false /\ Ascii.eqb a "+"%char = false.
Proof.
  intros Hne. destruct d; [congruence| | | | | | | | | |];
    cbn [NilEmpty.string_of_uint]; eexists; eexists; repeat split; reflexivity.
Qed.

Lemma Atoi_unsigned (d : Decimal.uint) :
  d <> Decimal.Nil ->
  Go.Atoi (NilEmpty.string_of_uint d)
  = if ((Go.minInt <=? uintVal 0 d) && (uintVal 0 d <=? Go.maxInt))%bool
    then Some (uintVal 0 d) else None.
Proof.
  intros Hne. destruct (string_of_uint_head d Hne) as (a & rest & Hs & Hm & Hp).
  destruct (digits_of_uint d) as [Hall Hval].
  unfold Go.Atoi. rewrite Hs. cbv zeta. rewrite Hm, Hp. cbn [orb]. cbv iota.
  rewrite <- Hs, Hall, Hval. reflexivity.
Qed.

Lemma Atoi_negative (d : Decimal.uint) :
  d <> Decimal.Nil ->
  Go.Atoi (String "-" (NilEmpty.string_of_uint d))
  = if ((Go.minInt <=? - uintVal 0 d) && (- uintVal 0 d <=? Go.maxInt))%bool
    then Some (- uintVal 0 d) else None.
Proof.
  intros Hne. destruct (string_of_uint_head d Hne) as (a & rest & Hs & _).
  destruct (digits_of_uint d) as [Hall Hval].
  unfold Go.Atoi. cbv zeta. cbn [Ascii.eqb Bool.eqb orb]. cbv iota.
  rewrite Hs. cbv iota. rewrite <- Hs, Hall, Hval. reflexivity.
Qed.

(** A number in the range of [int] printed with [%d] is read back by
    [Atoi]. *)
Lemma Atoi_itoa (z : Z) :
  Go.minInt <= z <= Go.maxInt -> Go.Atoi (Go.itoa z) = Some z.
Proof.
  intros Hrange. unfold Go.itoa.
  assert (Hin : forall v, v = z ->
            ((Go.minInt <=? v) && (v <=? Go.maxInt))%bool = true).
  { intros v ->. apply andb_true_iff. split; apply Z.leb_le; lia. }
  destruct z as [|p|p]; cbn [Z.to_int NilZero.string_of_int].
  - reflexivity.
  - assert (Hne := DecimalPos.Unsigned.to_uint_nonnil p).
    assert (Hv : uintVal 0 (Pos.to_uint p) = Z.pos p).
    { rewrite <- uintVal_of_uint, DecimalPos.Unsigned.of_to. reflexivity. }
    unfold NilZero.string_of_uint.
    destruct (Pos.to_uint p) eqn:Hd; [congruence| | | | | | | | | |];
      rewrite <- Hd in *; rewrite (Atoi_unsigned _ Hne), Hv, (Hin _ eq_refl);
      reflexivity.
  - assert (Hne := DecimalPos.Unsigned.to_uint_nonnil p).
    assert (Hv : uintVal 0 (Pos.to_uint p) = Z.pos p).
    { rewrite <- uintVal_of_uint, DecimalPos.Unsigned.of_to. reflexivity. }
    unfold NilZero.string_of_uint.
    destruct (Pos.to_uint p) eqn:Hd; [congruence| | | | | | | | | |];
      rewrite <- Hd in *; rewrite (Atoi_negative _ Hne), Hv;
      change (- Z.pos p) with (Z.neg p); rewrite (Hin _ eq_refl);
      reflexivity.
Qed.

(** X19: an ID is read back as it is printed. For an ID in the range of
    [int], the text [%d] prints in the replies and in the rows of [list]
    is read by [Atoi] as the same ID; so [remove] given the first field
    of the row of a subscription of the guild destroys that very
    subscription. *)
Theorem printed_id_is_read_back {R} (c : context R) (w : World R) (ok : bool)
    (sub : Subscription)
    (Hs : reliable (ctx_s c)) (Hg : gate (ctx_s c) (ctx_m c) ok)
    (Hrange : Go.minInt <= Sub_ID sub <= Go.maxInt)
    (Hargs : ctx_args c = [Go.itoa (Sub_ID sub)])
    (Hsub : GetSubscription (bot_c c) (Sub_ID sub) (store w) = Ok sub)
    (Hguild : Sub_GuildID sub = Msg_GuildID (ctx_m c)) :
  Go.Atoi (Go.itoa (Sub_ID sub)) = Some (Sub_ID sub)
  /\ (exists rest, listRow sub = Go.itoa (Sub_ID sub) ++ " | " ++ rest)
  /\ journal (snd (remove c w))
     = (journal w ++ [WDestroySubscription (Sub_ID sub)])%list
  /\ fst (remove c w) = Done None.
Proof.
  assert (Hid := Atoi_itoa (Sub_ID sub) Hrange).
  split; [exact Hid|]. split; [eexists; reflexivity|].
  assert (Hst : store (afterGate (ctx_m c) ok w) = store w)
    by (destruct ok; reflexivity).
  assert (Hj : journal (afterGate (ctx_m c) ok w) = journal w)
    by (destruct ok; reflexivity).
  assert (Hrun : remove c w
                 = (Done None,
                    deliver (Msg_ChannelID (ctx_m c)) (msgDeleted (Sub_ID sub))
                      (written (WDestroySubscription (Sub_ID sub))
                         (snd (DestroySubscription (bot_c c) (Sub_ID sub) (store w)))
                         (afterGate (ctx_m c) ok w)))).
  { unfold remove, bind at 1. rewrite (checkPrivilege_reliable c ok w Hs Hg).
    unfold arg. rewrite Hargs. cbn [length Nat.eqb negb nth]. rewrite Hid.
    unfold bind at 1. unfold query. rewrite Hst, Hsub.
    apply String.eqb_eq in Hguild. rewrite Hguild. cbn [negb].
    unfold bind.
    rewrite (update_written (WDestroySubscription (Sub_ID sub))
               (DestroySubscription (bot_c c) (Sub_ID sub))
               (afterGate (ctx_m c) ok w)).
    rewrite Hst. apply Reply_reliable. assumption. }
  rewrite Hrun. cbn [fst snd journal deliver written].
  rewrite Hj. split; reflexivity.
Qed.

Lemma printed_id_is_read_back_witness :
  Go.Atoi (Go.itoa 7) = Some 7
  /\ journal (snd (remove (Demo.ctxOf "g1" Demo.admin "/feed:remove 7" [Go.itoa 7])
                     Demo.world0))
     = [WDestroySubscription 7].
Proof.
  destruct (printed_id_is_read_back
              (Demo.ctxOf "g1" Demo.admin "/feed:remove 7" [Go.itoa 7])
              Demo.world0 true Demo.sub7 (fun _ _ => eq_refl) eq_refl)
    as (H1 & _ & H2 & _).
  - split; discriminate.
  - reflexivity.
  - reflexivity.
  - reflexivity.
  - split; [exact H1 | exact H2].
Defined.

(** ** Tokens *)

Lemma Split_not_nil (s : string) : Go.Split s <> [].
Proof.
  induction s as [|c s IH]; cbn [Go.Split]; [discriminate|].
  destruct (Ascii.eqb c Go.space); [discriminate|].
  destruct (Go.Split s); discriminate.
Qed.

(** X20: the router loses nothing when it cuts the text after the prefix
    into the verb and the arguments: there is always a verb, no token
    holds a space, and the tokens joined by single spaces are the text
    again; so two spaces in a row make an empty argument. *)
Theorem Split_tokens (content : string) :
  (exists verb args, Go.Split content = verb :: args)
  /\ Forall (fun t => hasSpace t = false) (Go.Split content)
  /\ joinSpaces (Go.Split content) = content
  /\ length (Go.Split content)
     = S (length (filter (fun a => Ascii.eqb a Go.space)
                    (list_ascii_of_string content))).
Proof.
  induction content as [|c s (Hne & Hsp & Hjoin & Hlen)].
  - repeat split; try reflexivity.
    + exists "", []. reflexivity.
    + constructor; [reflexivity | constructor].
  - destruct Hne as (verb & args & Hsplit).
    cbn [Go.Split list_ascii_of_string filter].
    destruct (Ascii.eqb_spec c Go.space) as [->|Hc].
    + repeat split.
      * eexists. eexists. reflexivity.
      * constructor; [reflexivity | assumption].
      * rewrite Hsplit in *.
        change (joinSpaces ("" :: verb :: args))
          with ("" ++ " " ++ joinSpaces (verb :: args)).
        rewrite Hjoin. reflexivity.
      * cbn [length]. rewrite Hlen. reflexivity.
    + rewrite Hsplit in *. repeat split.
      * eexists. eexists. reflexivity.
      * inversion Hsp as [|? ? Hv Hargs]; subst. constructor; [|assumption].
        cbn [hasSpace]. rewrite Hv.
        destruct (Ascii.eqb_spec c Go.space); [contradiction | reflexivity].
      * destruct args as [|a args]; cbn [joinSpaces append] in *;
          rewrite Hjoin; reflexivity.
      * cbn [length] in *. exact Hlen.
Qed.

(** ** The flag setters, continued *)

Lemma setFlag_finish {R} (c : context R) (w : World R) noun val :
  reliable (ctx_s c) ->
  (if sql.Bool val then
     Reply c ("feedbot will now post updates in this guild using " ++ noun
              ++ ", unless overridden elsewhere.")
   else if sql.Valid val then
     Reply c ("feedbot will no longer post updates in this guild using " ++ noun
              ++ ", unless overridden elsewhere.")
   else
     Reply c ("feedbot will default to the guild-wide behavior for " ++ noun ++ "."))
    w
  = (Done None, deliver (Msg_ChannelID (ctx_m c)) (flagReply noun val) w).
Proof.
  intros Hs. unfold flagReply.
  destruct (sql.Bool val); [|destruct (sql.Valid val)];
    apply Reply_reliable; assumption.
Qed.

Lemma setFlag_guild {R} (c : context R) (w : World R) usage noun gc mg oc mo
    sub0 flag b :
  reliable (ctx_s c) ->
  ctx_args c = [sub0; flag] ->
  parseFlag flag = Some (sql.mkNullBool b true) ->
  let r := mg (Msg_GuildID (ctx_m c)) b (store w) in
  let w1 := written (gc (Msg_GuildID (ctx_m c)) b) (snd r) w in
  setFlag c usage noun gc mg oc mo w
  = match fst r with
    | Some err => (Done (Some err), w1)
    | None =>
        (Done None,
         deliver (Msg_ChannelID (ctx_m c))
           (flagReply noun (sql.mkNullBool b true)) w1)
    end.
Proof.
  intros Hs Hargs Hflag. cbv zeta. unfold setFlag, arg. rewrite Hargs.
  cbn [length Nat.ltb Nat.leb Nat.eqb nth]. rewrite Hflag. cbv zeta.
  cbn [sql.Valid sql.Bool negb]. unfold bind.
  rewrite (update_written (gc (Msg_GuildID (ctx_m c)) b)
             (mg (Msg_GuildID (ctx_m c)) b) w).
  destruct (fst (mg (Msg_GuildID (ctx_m c)) b (store w))); [reflexivity|].
  unfold flagReply. cbn [sql.Valid sql.Bool].
  destruct b; apply Reply_reliable; assumption.
Qed.

Lemma setFlag_overwrite {R} (c : context R) (w : World R) usage noun gc mg oc mo
    sub0 flag val idArg more id sub :
  reliable (ctx_s c) ->
  ctx_args c = sub0 :: flag :: idArg :: more ->
  parseFlag flag = Some val ->
  Go.Atoi idArg = Some id ->
  GetSubscription (bot_c c) id (store w) = Ok sub ->
  Sub_GuildID sub = Msg_GuildID (ctx_m c) ->
  let r := mo (Sub_ID sub) val (store w) in
  let w1 := written (oc (Sub_ID sub) val) (snd r) w in
  setFlag c usage noun gc mg oc mo w
  = match fst r with
    | Some err => (Done (Some err), w1)
    | None => (Done None, deliver (Msg_ChannelID (ctx_m c)) (flagReply noun val) w1)
    end.
Proof.
  intros Hs Hargs Hflag Hid Hsub Hguild. cbv zeta. unfold setFlag, arg.
  rewrite Hargs. cbn [length Nat.ltb Nat.leb Nat.eqb nth]. rewrite Hflag.
  cbv zeta. unfold withOwnSubscription. rewrite Hid.
  unfold bind, query. cbv beta iota. rewrite Hsub.
  apply String.eqb_eq in Hguild. rewrite Hguild. cbn [negb].
  rewrite (update_written (oc (Sub_ID sub) val) (mo (Sub_ID sub) val) w).
  destruct (fst (mo (Sub_ID sub) val (store w))); [reflexivity|].
  apply setFlag_finish. assumption.
Qed.

(** X21: [set embed] on its two paths, once the permission check has
    passed and the transport delivers. With a flag alone, [on] and [off] are written to the guild as
    [true] and [false]; with an ID of a subscription of the guild after
    it, the flag is written to the overwrite of the subscription the
    repository returned, [inherit] as the invalid value. An error of
    the write is returned without a reply; otherwise the reply is chosen
    by the value: posting with embeds for [on], no longer for [off],
    the guild-wide behaviour for [inherit]. *)
Theorem setEmbed_writes_and_reports {R} (c : context R) (w : World R)
    (ok : bool) (flag : string) (val : sql.NullBool)
    (Hs : reliable (ctx_s c)) (Hg : gate (ctx_s c) (ctx_m c) ok)
    (Hflag : parseFlag flag = Some val) :
  let ch := Msg_ChannelID (ctx_m c) in
  let guild := Msg_GuildID (ctx_m c) in
  let w0 := afterGate (ctx_m c) ok w in
  (ctx_args c = ["embed"; flag] -> sql.Valid val = true ->
   let r := ModifyGuildEmbeds (bot_c c) guild (sql.Bool val) (store w) in
   let w1 := written (WModifyGuildEmbeds guild (sql.Bool val)) (snd r) w0 in
   set c w
   = match fst r with
     | Some err => (Done (Some err), w1)
     | None => (Done None, deliver ch (flagReply "embeds" val) w1)
     end)
  /\ (forall idArg more id sub,
        ctx_args c = "embed" :: flag :: idArg :: more ->
        Go.Atoi idArg = Some id ->
        GetSubscription (bot_c c) id (store w) = Ok sub ->
        Sub_GuildID sub = guild ->
        let r := ModifyOverwriteEmbeds (bot_c c) (Sub_ID sub) val (store w) in
        let w1 := written (WModifyOverwriteEmbeds (Sub_ID sub) val) (snd r) w0 in
        set c w
        = match fst r with
          | Some err => (Done (Some err), w1)
          | None => (Done None, deliver ch (flagReply "embeds" val) w1)
          end)
  /\ (flag = "on" -> val = sql.mkNullBool true true)
  /\ (flag = "off" -> val = sql.mkNullBool false true)
  /\ (flag = "inherit" -> val = sql.mkNullBool false false).
Proof.
  cbv zeta.
  assert (Hst : store (afterGate (ctx_m c) ok w) = store w)
    by (destruct ok; reflexivity).
  split; [|split; [|split; [|split]]].
  - intros Hargs Hvalid.
    rewrite (set_dispatch c ok w "embed" [flag] Hs Hg Hargs).
    cbn [String.eqb Ascii.eqb Bool.eqb]. unfold setEmbed.
    destruct val as [b valid]. cbn [sql.Valid sql.Bool] in *. subst valid.
    rewrite (setFlag_guild c (afterGate (ctx_m c) ok w) _ "embeds"
               WModifyGuildEmbeds (ModifyGuildEmbeds (bot_c c))
               WModifyOverwriteEmbeds (ModifyOverwriteEmbeds (bot_c c))
               "embed" flag b Hs Hargs Hflag).
    rewrite Hst. reflexivity.
  - intros idArg more id sub Hargs Hid Hsub Hguild.
    rewrite (set_dispatch c ok w "embed" (flag :: idArg :: more) Hs Hg Hargs).
    cbn [String.eqb Ascii.eqb Bool.eqb]. unfold setEmbed.
    rewrite <- Hst in Hsub.
    rewrite (setFlag_overwrite c (afterGate (ctx_m c) ok w) _ "embeds"
               WModifyGuildEmbeds (ModifyGuildEmbeds (bot_c c))
               WModifyOverwriteEmbeds (ModifyOverwriteEmbeds (bot_c c))
               "embed" flag val idArg more id sub Hs Hargs Hflag Hid Hsub Hguild).
    rewrite Hst. reflexivity.
  - intros ->. cbn in Hflag. congruence.
  - intros ->. cbn in Hflag. congruence.
  - intros ->. cbn in Hflag. congruence.
Qed.

(** [set embed inherit 7] in the guild of subscription 7. *)
Lemma setEmbed_writes_and_reports_witness :
  set (Demo.ctxOf "g1" Demo.admin "/feed:set embed inherit 7"
         ["embed"; "inherit"; "7"]) Demo.world0
  = (Done None,
     deliver "55" "feedbot will default to the guild-wide behavior for embeds."
       (written (WModifyOverwriteEmbeds 7 (sql.mkNullBool false false))
          Demo.store0 Demo.world0)).
Proof.
  destruct (setEmbed_writes_and_reports
              (Demo.ctxOf "g1" Demo.admin "/feed:set embed inherit 7"
                 ["embed"; "inherit"; "7"])
              Demo.world0 true "inherit" (sql.mkNullBool false false)
              (fun _ _ => eq_refl) eq_refl eq_refl)
    as (_ & H & _).
  exact (H "7" [] 7 Demo.sub7 eq_refl eq_refl eq_refl eq_refl).
Defined.

(** ** A directory outage, end to end *)

Lemma checkPrivilege_directory_error {R} (c : context R) (w : World R) ok err :
  memberHasPermission (ctx_s c) (Msg_GuildID (ctx_m c))
    (User_ID (Msg_Author (ctx_m c))) PermissionAdministrator = (ok, Some err) ->
  checkPrivilege c w = (Done (false, Some err), w).
Proof. intros H. unfold checkPrivilege. rewrite H. reflexivity. Qed.

(** X22: when the directory cannot tell the roles of the author, a
    privileged command is dropped at the router with one log line under
    its verb and nothing else: no reply, no write. The line carries the
    error of the directory, with a stack for [add]. *)
Theorem directory_error_is_logged {R} (bot : Controller R) (s : Session)
    (m : MessageCreate) (w : World R) (verb : string) (args : list string)
    (content : string) (ok : bool) (err : Err)
    (Hbot : User_Bot (Msg_Author m) = false)
    (Hinv : invocation w m = Some content)
    (Hparts : Go.Split content = verb :: args)
    (Hverb : In verb ["add"; "remove"; "list"; "set"])
    (Hdir : memberHasPermission s (Msg_GuildID m) (User_ID (Msg_Author m))
              PermissionAdministrator = (ok, Some err)) :
  onMessageCreate bot s m w
  = println (LogErr verb (if String.eqb verb "add" then WithStack err else err)) w.
Proof.
  unfold onMessageCreate. rewrite Hbot, Hinv, Hparts.
  cbn [length nth tl].
  assert (Hgate : forall a, checkPrivilege (mkContext bot s m a) w
                            = (Done (false, Some err), w)).
  { intros a. apply (checkPrivilege_directory_error _ w ok err). exact Hdir. }
  replace (length (verb :: args) <? 1)%nat with false by reflexivity.
  destruct (1 <? S (length args))%nat;
    cbn in Hverb; destruct Hverb as [<-|[<-|[<-|[<-|[]]]]].
  all: try (change (@mux R "add") with (Some (@add R)); cbn iota;
            unfold add, bind; rewrite Hgate; reflexivity).
  all: try (change (@mux R "remove") with (Some (@remove R)); cbn iota;
            unfold remove, bind; rewrite Hgate; reflexivity).
  all: try (change (@mux R "list") with (Some (@list_ R)); cbn iota;
            unfold list_, bind; rewrite Hgate; reflexivity).
  all: change (@mux R "set") with (Some (@set R)); cbn iota;
    unfold set, bind; rewrite Hgate; reflexivity.
Qed.

(** Member 300 holds a role the cache misses and asks for the list. *)
Lemma directory_error_is_logged_witness :
  onMessageCreate Mem.controller Demo.session
    (Demo.message "g1" (mkUser "300" false) "/feed:list") Demo.world0
  = println (LogErr "list" (ErrOther "state cache miss")) Demo.world0.
Proof.
  apply (directory_error_is_logged Mem.controller Demo.session
           (Demo.message "g1" (mkUser "300" false) "/feed:list") Demo.world0
           "list" [] "list" false (ErrOther "state cache miss")).
  - reflexivity.
  - reflexivity.
  - reflexivity.
  - cbn. tauto.
  - reflexivity.
Defined.
